(** * Nomination lifecycle of the talent pool cog, and the site rules command

    A shallow embedding of
      - [bot/cogs/watchchannels/talentpool.py] (class [TalentPool]) and
      - [bot/cogs/site.py] (command [Site.site_rules]).

    The commands are coroutines that talk to three collaborators: the Discord
    channel of the invocation ([ctx.send], the paginator), the site API
    ([bot.api_client], [session.post]) and the in-memory state of the cog
    (the watched-user cache, the guild member cache).  They are embedded in a
    state-and-exception monad whose state carries the cog's cache and the
    trace of every externally visible action, in program order.  The site API
    is an arbitrary deterministic environment: its answer to a request may
    depend on everything that happened before.

    Conventions of the embedding:
      - text is a [string] holding the UTF-8 bytes of a Python [str]; its
        length, its indexing and its iteration go by characters (code
        points), see [characters]; whitespace is the ASCII whitespace;
      - JSON numbers are integers, as the identifiers of the API are;
      - [ctx.send] and the paginator are recorded as events of the trace and
        do not fail; the store may fail at every request;
      - the decorators of the commands (role checks, output redirection)
        belong to the dispatch layer and are not part of the command
        bodies. *)

From Stdlib Require Import ZArith List String Ascii Bool Lia.
From stdpp Require Import base option list gmap strings pretty.

Local Open Scope string_scope.
Local Open Scope Z_scope.
Disable Notation "_ ++ _" : string_scope.
Set Warnings "-register-all".

(** ** Decoded JSON values

    What [resp.json()] hands to the commands.  Numbers are the integers the
    API uses for identifiers; objects keep their fields in document order and
    are read with first-match lookup. *)

Inductive json : Type :=
| JNull
| JBool (b : bool)
| JNum (n : Z)
| JStr (s : string)
| JList (items : list json)
| JObj (fields : list (string * json)).

(** Python exceptions the commands can end with. *)
Inductive exn : Type :=
| ResponseCodeError (status : Z)     (* bot.api: the API answered with an error status *)
| ClientResponseError (status : Z)   (* aiohttp: resp.raise_for_status() *)
| ClientConnectionError              (* aiohttp: no response at all *)
| ContentTypeError                   (* aiohttp: resp.json() on a body that is not JSON *)
| AttributeError
| KeyError
| IndexError
| TypeError
| ValueError.

Inductive result (A : Type) : Type :=
| Return (a : A)
| Raise (e : exn).
Arguments Return {A} a.
Arguments Raise {A} e.

(** Truth value of a decoded JSON value ([if x:], [not x]). *)
Definition truthy (j : json) : bool :=
  match j with
  | JNull => false
  | JBool b => b
  | JNum n => negb (n =? 0)
  | JStr s => negb (String.eqb s EmptyString)
  | JList items => match items with [] => false | _ => true end
  | JObj fields => match fields with [] => false | _ => true end
  end.

Fixpoint assoc (k : string) (fields : list (string * json)) : option json :=
  match fields with
  | [] => None
  | (k', v) :: rest => if String.eqb k k' then Some v else assoc k rest
  end.

(** [obj[key]] for a string key. *)
Definition py_getitem_str (obj : json) (key : string) : result json :=
  match obj with
  | JObj fields =>
      match assoc key fields with
      | Some v => Return v
      | None => Raise KeyError
      end
  | _ => Raise TypeError
  end.

(** [obj.get(key, False)]: only dictionaries have [get]. *)
Definition py_get_or_false (obj : json) (key : string) : result json :=
  match obj with
  | JObj fields =>
      match assoc key fields with
      | Some v => Return v
      | None => Return (JBool false)
      end
  | _ => Raise AttributeError
  end.

(** A byte of the form 10xxxxxx continues the character begun before it. *)
Definition is_continuation (c : ascii) : bool :=
  let n := nat_of_ascii c in
  ((128 <=? n) && (n <? 192))%nat.

(** The characters (code points) of a text, each with its own bytes: a
    character is a byte together with the continuation bytes after it. *)
Fixpoint characters (s : string) : list string :=
  match s with
  | EmptyString => []
  | String c rest =>
      match characters rest with
      | (String c' _ as next) :: others =>
          if is_continuation c' then String c next :: others
          else String c EmptyString :: next :: others
      | others => String c EmptyString :: others
      end
  end.

(** [len(obj)]; the length of a string is its number of characters. *)
Definition py_len (obj : json) : result Z :=
  match obj with
  | JList items => Return (Z.of_nat (length items))
  | JObj fields => Return (Z.of_nat (length fields))
  | JStr s => Return (Z.of_nat (length (characters s)))
  | _ => Raise TypeError
  end.

(** [obj[i]] for an integer index; a negative index counts from the end of a
    sequence, and anything outside [-len, len) raises [IndexError].  A string
    is the sequence of its characters. *)
Definition py_getitem_int (obj : json) (i : Z) : result json :=
  match obj with
  | JList items =>
      let n := Z.of_nat (length items) in
      let k := if i <? 0 then i + n else i in
      if (k <? 0) || (n <=? k) then Raise IndexError
      else match nth_error items (Z.to_nat k) with
           | Some x => Return x
           | None => Raise IndexError
           end
  | JStr s =>
      let n := Z.of_nat (length (characters s)) in
      let k := if i <? 0 then i + n else i in
      if (k <? 0) || (n <=? k) then Raise IndexError
      else match nth_error (characters s) (Z.to_nat k) with
           | Some c => Return (JStr c)
           | None => Raise IndexError
           end
  | JObj _ => Raise KeyError
  | _ => Raise TypeError
  end.

(** [for x in obj]: a list yields its items, a dictionary its keys and a
    string its characters; nothing else is iterable. *)
Definition py_iter (obj : json) : result (list json) :=
  match obj with
  | JList items => Return items
  | JObj fields => Return (map (fun kv => JStr (fst kv)) fields)
  | JStr s => Return (map JStr (characters s))
  | _ => Raise TypeError
  end.

(** [[x] = obj]: unpacking into exactly one target. *)
Definition unpack_single (obj : json) : result json :=
  match py_iter obj with
  | Return [x] => Return x
  | Return _ => Raise ValueError
  | Raise e => Raise e
  end.

(** [type(obj).__name__]. *)
Definition py_type_name (obj : json) : string :=
  match obj with
  | JNull => "NoneType"
  | JBool _ => "bool"
  | JNum _ => "int"
  | JStr _ => "str"
  | JList _ => "list"
  | JObj _ => "dict"
  end.

(** ** Text helpers of the Python runtime *)

Definition LF : ascii := ascii_of_nat 10.
Definition TAB : ascii := ascii_of_nat 9.
Definition NL : string := String LF EmptyString.

(** [sep.join(parts)]. *)
Fixpoint join (sep : string) (parts : list string) : string :=
  match parts with
  | [] => EmptyString
  | [p] => p
  | p :: rest => p +:+ sep +:+ join sep rest
  end.

(** [text.split('\n')]. *)
Fixpoint split_lines (text : string) : list string :=
  match text with
  | EmptyString => [EmptyString]
  | String c rest =>
      if Ascii.eqb c LF then EmptyString :: split_lines rest
      else match split_lines rest with
           | l :: ls => String c l :: ls
           | [] => [String c EmptyString]
           end
  end.

Definition is_indent_char (c : ascii) : bool := Ascii.eqb c " " || Ascii.eqb c TAB.

Fixpoint whitespace_only (line : string) : bool :=
  match line with
  | EmptyString => true
  | String c rest => is_indent_char c && whitespace_only rest
  end.

Fixpoint leading_whitespace (line : string) : string :=
  match line with
  | EmptyString => EmptyString
  | String c rest => if is_indent_char c then String c (leading_whitespace rest) else EmptyString
  end.

Fixpoint common_prefix (a b : string) : string :=
  match a, b with
  | String x a', String y b' => if Ascii.eqb x y then String x (common_prefix a' b') else EmptyString
  | _, _ => EmptyString
  end.

Fixpoint remove_prefix (p line : string) : option string :=
  match p, line with
  | EmptyString, _ => Some line
  | String x p', String y line' => if Ascii.eqb x y then remove_prefix p' line' else None
  | String _ _, EmptyString => None
  end.

(** [textwrap.dedent]: lines of blanks and tabs only become empty, the margin
    is the longest whitespace prefix shared by the remaining lines, and the
    margin is cut from every line that starts with it. *)
Definition dedent_margin (lines : list string) : option string :=
  fold_left
    (fun margin indent =>
       match margin with
       | None => Some indent
       | Some m => Some (common_prefix m indent)
       end)
    (map leading_whitespace (List.filter (fun l => negb (whitespace_only l)) lines))
    None.

Definition dedent (text : string) : string :=
  let lines := map (fun l => if whitespace_only l then EmptyString else l) (split_lines text) in
  match dedent_margin lines with
  | None | Some EmptyString => join NL lines
  | Some margin =>
      join NL (map (fun l => match remove_prefix margin l with Some l' => l' | None => l end) lines)
  end.

(** [text.strip()]: the whitespace of [str.isspace] within ASCII. *)
Definition is_space (c : ascii) : bool :=
  let n := nat_of_ascii c in
  ((9 <=? n) && (n <=? 13) || (28 <=? n) && (n <=? 32))%nat.

Fixpoint lstrip (s : string) : string :=
  match s with
  | EmptyString => EmptyString
  | String c rest => if is_space c then lstrip rest else s
  end.

Fixpoint rstrip (s : string) : string :=
  match s with
  | EmptyString => EmptyString
  | String c rest =>
      match rstrip rest with
      | EmptyString => if is_space c then EmptyString else String c EmptyString
      | r => String c r
      end
  end.

Definition strip (s : string) : string := rstrip (lstrip s).

(** [str(n)] for an integer. *)
Definition str_int (n : Z) : string := pretty n.

(** ** Discord objects, as far as the commands read them *)

(** The [user] argument of a command: a [Member], a [User] or the stand-in
    object built by [proxy_user]. *)
Record Account : Type := {
  acc_id : Z;                       (* user.id *)
  acc_bot : bool;                   (* user.bot *)
  acc_roles : option (list Z);      (* ids of user.roles; [Some] exactly for a Member *)
  acc_str : string;                 (* str(user) *)
  acc_display_name : string;        (* user.display_name *)
}.

Record Context : Type := {
  author : Account;                 (* ctx.author *)
}.

Record Member : Type := {
  mention : string;                 (* member.mention *)
}.

Record Embed : Type := {
  title : string;
  url : option string;
  description : option string;
}.

(** ** What the surrounding bot provides

    Constants of [bot.constants], helpers of [bot.utils] and [bot.api], and
    the one piece of the Python runtime that is not spelled out here: the
    [repr] of a list or dictionary, reached only when such a value is
    interpolated into text. *)
Class Config : Type := {
  Roles_owner : Z;
  Roles_admin : Z;
  Roles_moderator : Z;
  Roles_helpers : Z;
  PAGES_URL : string;                              (* site.py, line 11 *)
  _url_for : string -> string;                     (* bot.api_client._url_for *)
  format_infraction : json -> result string;       (* bot.utils.time.format_infraction *)
  py_repr : json -> string;
}.

(** ** Requests, replies and the trace *)

Inductive request : Type :=
| ApiGet (endpoint : string) (params : gmap string string)    (* bot.api_client.get *)
| ApiPatch (endpoint : string) (body : json)                  (* bot.api_client.patch *)
| SessionPost (target : string) (body : json).                (* session.post, raise_for_status=False *)

Inductive event : Type :=
| Call (r : request)
| Send (content : string)                      (* ctx.send(content) *)
| SendEmbed (embed : Embed)                    (* ctx.send(embed=embed) *)
| Paginate (lines : list string) (embed : Embed)   (* LinePaginator.paginate *)
| Log (level message : string).

(** Answer of [bot.api_client]: the decoded body, or [ResponseCodeError] with
    the status of the response, or no response. *)
Inductive api_reply : Type :=
| Reply (data : json)
| Rejected (status : Z)
| Unreachable.

(** Answer of the raw session: status and body as they came ([None]: the body
    is not JSON), or no response. *)
Inductive http_reply : Type :=
| Response (status : Z) (body : option json)
| NoResponse.

(** The remote nomination store: each answer is a function of the request and
    of the trace so far. *)
Class Store : Type := {
  api_get : list event -> string -> gmap string string -> api_reply;
  api_patch : list event -> string -> json -> api_reply;
  session_post : list event -> string -> json -> http_reply;
}.

(** ** State of the bot and the command monad *)

Record Bot : Type := {
  watched_users : gmap Z json;          (* self.watched_users *)
  guild : option (gmap Z Member);       (* self.bot.get_guild(Guild.id) and its members *)
  trace : list event;
}.

Definition M (A : Type) : Type := Bot -> result A * Bot.

Definition ret {A} (a : A) : M A := fun b => (Return a, b).

Definition raise {A} (e : exn) : M A := fun b => (Raise e, b).

Definition bind {A B} (m : M A) (k : A -> M B) : M B :=
  fun b =>
    match m b with
    | (Return a, b') => k a b'
    | (Raise e, b') => (Raise e, b')
    end.

Notation "x <- m ;; k" := (bind m (fun x => k))
  (at level 100, m at next level, right associativity).
Notation "m ;; k" := (bind m (fun _ => k))
  (at level 100, right associativity).

(** A pure computation that may raise. *)
Definition lift {A} (r : result A) : M A := fun b => (r, b).

(** [try: m] with the exception handed to the code after it. *)
Definition attempt {A} (m : M A) : M (result A) :=
  fun b => let (r, b') := m b in (Return r, b').

Definition emit (e : event) : M unit :=
  fun b => (Return tt, {| watched_users := watched_users b; guild := guild b;
                          trace := trace b ++ [e] |}).

Definition get_watched_users : M (gmap Z json) := fun b => (Return (watched_users b), b).

Definition set_watched_users (cache : gmap Z json) : M unit :=
  fun b => (Return tt, {| watched_users := cache; guild := guild b; trace := trace b |}).

Definition get_guild : M (option (gmap Z Member)) := fun b => (Return (guild b), b).

Definition ctx_send (content : string) : M unit := emit (Send content).

Definition log (level message : string) : M unit := emit (Log level message).

Section Commands.
Context {C : Config} {S : Store}.

Definition of_api_reply (r : api_reply) : result json :=
  match r with
  | Reply data => Return data
  | Rejected status => Raise (ResponseCodeError status)
  | Unreachable => Raise ClientConnectionError
  end.

(** [await self.bot.api_client.get(endpoint, params=params)]. *)
Definition api_client_get (endpoint : string) (params : gmap string string) : M json :=
  fun b => bind (emit (Call (ApiGet endpoint params)))
                (fun _ => lift (of_api_reply (api_get (trace b) endpoint params))) b.

(** [await self.bot.api_client.patch(endpoint, json=body)]. *)
Definition api_client_patch (endpoint : string) (body : json) : M json :=
  fun b => bind (emit (Call (ApiPatch endpoint body)))
                (fun _ => lift (of_api_reply (api_patch (trace b) endpoint body))) b.

(** [session.post(target, json=body, raise_for_status=False)]: the response
    object, whatever its status. *)
Definition post (target : string) (body : json) : M (Z * option json) :=
  fun b => bind (emit (Call (SessionPost target body)))
                (fun _ => lift match session_post (trace b) target body with
                               | Response status data => Return (status, data)
                               | NoResponse => Raise ClientConnectionError
                               end) b.

(** [await resp.json()]. *)
Definition resp_json (data : option json) : result json :=
  match data with
  | Some j => Return j
  | None => Raise ContentTypeError
  end.

(** [resp.raise_for_status()]. *)
Definition raise_for_status (status : Z) : result unit :=
  if 400 <=? status then Raise (ClientResponseError status) else Return tt.

(** [str(value)] as an f-string applies it to a decoded JSON value. *)
Definition py_str (value : json) : string :=
  match value with
  | JNull => "None"
  | JBool true => "True"
  | JBool false => "False"
  | JNum n => str_int n
  | JStr s => s
  | JList _ | JObj _ => py_repr value
  end.

(** *** The watch channel base class *)

(** [api_endpoint] and [api_default_params] as [TalentPool.__init__] passes
    them to the base class (talentpool.py, lines 28 and 29). *)
Definition api_endpoint : string := "bot/nominations".

Definition api_default_params : gmap string string :=
  <["active" := "true"]> (<["ordering" := "-inserted_at"]> ∅).

(** Modelled from the spec: the cache built by a refresh, a mapping from user
    identifier to the fetched active-nomination record of that user.  A
    record without an integer [user] entry makes the refresh fail. *)
Fixpoint index_by_user (records : list json) (cache : gmap Z json) : option (gmap Z json) :=
  match records with
  | [] => Some cache
  | record :: rest =>
      match py_getitem_str record "user" with
      | Return (JNum user_id) => index_by_user rest (<[user_id := record]> cache)
      | _ => None
      end
  end.

(** Modelled from the spec: [WatchChannel.fetch_user_cache], whose source is
    not part of the two modules.  It re-fetches the currently active
    nominations from the store and replaces the cache by them, keyed by user
    identifier with the fetched record as value; it returns whether this
    succeeded, and a failure leaves the cache as it was. *)
Definition fetch_user_cache : M bool :=
  r <- attempt (api_client_get api_endpoint api_default_params) ;;
  match r with
  | Return (JList records) =>
      match index_by_user records ∅ with
      | Some cache => set_watched_users cache ;; ret true
      | None => ret false
      end
  | _ => ret false
  end.

(** Modelled from the spec: [WatchChannel._remove_user], whose source is not
    part of the two modules.  It evicts the entry of the user from the
    cache. *)
Definition _remove_user (user_id : Z) : M unit :=
  cache <- get_watched_users ;;
  set_watched_users (delete user_id cache).

(** *** talentpool.py *)

Definition STAFF_ROLES : list Z := [Roles_owner; Roles_admin; Roles_moderator; Roles_helpers].

(** [isinstance(user, Member) and any(role.id in STAFF_ROLES for role in user.roles)]. *)
Definition is_staff_member (user : Account) : bool :=
  match acc_roles user with
  | Some roles => existsb (fun role_id => existsb (Z.eqb role_id) STAFF_ROLES) roles
  | None => false
  end.

Definition watch_command (ctx : Context) (user : Account) (reason : string) : M unit :=
  if acc_bot user then
    ctx_send (":x: I'm sorry " +:+ acc_str (author ctx)
              +:+ ", I'm afraid I can't do that. I only watch humans.")
  else if is_staff_member user then
    ctx_send ":x: Nominating staff members, eh? Here's a cookie :cookie:"
  else
    refreshed <- fetch_user_cache ;;
    if negb refreshed then
      ctx_send (":x: Failed to update the user cache; can't add " +:+ acc_str user)
    else
      cache <- get_watched_users ;;
      if bool_decide (is_Some (cache !! acc_id user)) then
        ctx_send ":x: The specified user is already being watched in the talent pool"
      else
        resp <- post (_url_for api_endpoint)
                     (JObj [("actor", JNum (acc_id (author ctx)));
                            ("reason", JStr reason);
                            ("user", JNum (acc_id user))]) ;;
        response_data <- lift (resp_json (snd resp)) ;;
        user_error <- (if fst resp =? 400
                       then lift (match py_get_or_false response_data "user" with
                                  | Return v => Return (truthy v)
                                  | Raise e => Raise e
                                  end)
                       else ret false) ;;
        if user_error then
          ctx_send ":x: The specified user can't be found in the database tables"
        else
          lift (raise_for_status (fst resp)) ;;
          cache' <- get_watched_users ;;
          set_watched_users (<[acc_id user := response_data]> cache') ;;
          ctx_send (":white_check_mark: Messages sent by " +:+ acc_str user
                    +:+ " will now be relayed to the talent pool channel").

Definition unwatch_command (ctx : Context) (user : Account) (reason : string) : M unit :=
  active_nomination <-
    api_client_get api_endpoint
      (api_default_params ∪ <["user__id" := str_int (acc_id user)]> ∅) ;;
  if negb (truthy active_nomination) then
    ctx_send ":x: The specified user does not have an active nomination"
  else
    nomination <- lift (unpack_single active_nomination) ;;
    nomination_id <- lift (py_getitem_str nomination "id") ;;
    api_client_patch (api_endpoint +:+ "/" +:+ py_str nomination_id)
                     (JObj [("end_reason", JStr reason); ("active", JBool false)]) ;;
    ctx_send (":white_check_mark: Messages sent by " +:+ acc_str user
              +:+ " will no longer be relayed") ;;
    _remove_user (acc_id user).

Definition edit_reason_command (ctx : Context) (nomination_id : Z) (reason : string) : M unit :=
  fetched <- attempt (api_client_get (api_endpoint +:+ "/" +:+ str_int nomination_id) ∅) ;;
  match fetched with
  | Raise (ResponseCodeError status) =>
      if status =? 404 then
        log "TRACE" ("Nomination API 404: Can't nomination with id " +:+ str_int nomination_id) ;;
        ctx_send (":x: Can't find a nomination with id `" +:+ str_int nomination_id +:+ "`")
      else raise (ResponseCodeError status)
  | Raise e => raise e
  | Return nomination =>
      active <- lift (py_getitem_str nomination "active") ;;
      let field := if truthy active then "reason" else "end_reason" in
      log "TRACE" ("Changing " +:+ field +:+ " for nomination with id "
                   +:+ str_int nomination_id +:+ " to " +:+ reason) ;;
      api_client_patch (api_endpoint +:+ "/" +:+ str_int nomination_id)
                       (JObj [(field, JStr reason)]) ;;
      ctx_send (":white_check_mark: Updated the " +:+ field +:+ " of the nomination!")
  end.

Fixpoint for_each {A B} (f : A -> M B) (items : list A) : M (list B) :=
  match items with
  | [] => ret []
  | x :: rest =>
      y <- f x ;;
      ys <- for_each f rest ;;
      ret (y :: ys)
  end.

(** [guild.get_member(actor_id)]: a lookup in the member dictionary of the
    guild.  [True] and [False] hash like 1 and 0; lists and dictionaries are
    not hashable. *)
Definition get_member (g : option (gmap Z Member)) (actor_id : json) : result (option Member) :=
  match g with
  | None => Raise AttributeError
  | Some members =>
      match actor_id with
      | JNum n => Return (members !! n)
      | JBool b => Return (members !! (if b then 1 else 0))
      | JNull | JStr _ => Return None
      | JList _ | JObj _ => Raise TypeError
      end
  end.

Definition margin16 : string := "                ".

Definition active_template (start_date actor reason nomination_id : string) : string :=
  NL +:+ margin16 +:+ "===============" +:+ NL
  +:+ margin16 +:+ "Status: **Active**" +:+ NL
  +:+ margin16 +:+ "Date: " +:+ start_date +:+ NL
  +:+ margin16 +:+ "Actor: " +:+ actor +:+ NL
  +:+ margin16 +:+ "Reason: " +:+ reason +:+ NL
  +:+ margin16 +:+ "Nomination ID: `" +:+ nomination_id +:+ "`" +:+ NL
  +:+ margin16 +:+ "===============" +:+ NL
  +:+ margin16.

Definition inactive_template
    (start_date actor reason end_date end_reason nomination_id : string) : string :=
  NL +:+ margin16 +:+ "===============" +:+ NL
  +:+ margin16 +:+ "Status: Inactive" +:+ NL
  +:+ margin16 +:+ "Date: " +:+ start_date +:+ NL
  +:+ margin16 +:+ "Actor: " +:+ actor +:+ NL
  +:+ margin16 +:+ "Reason: " +:+ reason +:+ NL
  +:+ NL
  +:+ margin16 +:+ "End date: " +:+ end_date +:+ NL
  +:+ margin16 +:+ "Unwatch reason: " +:+ end_reason +:+ NL
  +:+ margin16 +:+ "Nomination ID: `" +:+ nomination_id +:+ "`" +:+ NL
  +:+ margin16 +:+ "===============" +:+ NL
  +:+ margin16.

Definition _nomination_to_string (nomination_object : json) : M string :=
  g <- get_guild ;;
  actor_id <- lift (py_getitem_str nomination_object "actor") ;;
  actor <- lift (get_member g actor_id) ;;
  active <- lift (py_getitem_str nomination_object "active") ;;
  log "DEBUG" (py_str active) ;;
  inserted_at <- lift (py_getitem_str nomination_object "inserted_at") ;;
  log "DEBUG" ("<class '" +:+ py_type_name inserted_at +:+ "'>") ;;
  start_date <- lift (format_infraction inserted_at) ;;
  let actor_text := match actor with
                    | Some member => mention member
                    | None => py_str actor_id
                    end in
  if truthy active then
    reason <- lift (py_getitem_str nomination_object "reason") ;;
    nomination_id <- lift (py_getitem_str nomination_object "id") ;;
    ret (strip (dedent (active_template start_date actor_text
                          (py_str reason) (py_str nomination_id))))
  else
    ended_at <- lift (py_getitem_str nomination_object "ended_at") ;;
    end_date <- lift (format_infraction ended_at) ;;
    reason <- lift (py_getitem_str nomination_object "reason") ;;
    end_reason <- lift (py_getitem_str nomination_object "end_reason") ;;
    nomination_id <- lift (py_getitem_str nomination_object "id") ;;
    ret (strip (dedent (inactive_template start_date actor_text (py_str reason)
                          end_date (py_str end_reason) (py_str nomination_id)))).

Definition history_command (ctx : Context) (user : Account) : M unit :=
  history <-
    api_client_get api_endpoint
      (<["user__id" := str_int (acc_id user)]> (<["ordering" := "-active,-inserted_at"]> ∅)) ;;
  if negb (truthy history) then
    ctx_send ":warning: This user has never been nominated"
  else
    nominations <- lift (py_iter history) ;;
    lines <- for_each _nomination_to_string nominations ;;
    emit (Paginate lines
            {| title := "Nominations for " +:+ acc_display_name user
                        +:+ " `(" +:+ str_int (acc_id user) +:+ ")`";
               url := None; description := None |}).

(** *** site.py *)

(** [tuple(pick for pick in rules if pick < 0 or pick >= len(full_rules))]:
    [len] is only asked for a pick that is not negative. *)
Fixpoint invalid_picks (full_rules : json) (rules : list Z) : result (list Z) :=
  match rules with
  | [] => Return []
  | pick :: rest =>
      match (if pick <? 0 then Return true
             else match py_len full_rules with
                  | Return n => Return (n <=? pick)
                  | Raise e => Raise e
                  end) with
      | Raise e => Raise e
      | Return invalid =>
          match invalid_picks full_rules rest with
          | Return others => Return (if invalid then pick :: others else others)
          | Raise e => Raise e
          end
      end
  end.

(** [tuple(f"**{pick}.** {full_rules[pick]}" for pick in rules)]. *)
Fixpoint pick_rules (full_rules : json) (rules : list Z) : result (list string) :=
  match rules with
  | [] => Return []
  | pick :: rest =>
      match py_getitem_int full_rules pick with
      | Raise e => Raise e
      | Return rule =>
          match pick_rules full_rules rest with
          | Return others => Return (("**" +:+ str_int pick +:+ ".** " +:+ py_str rule) :: others)
          | Raise e => Raise e
          end
      end
  end.

Definition rules_embed : Embed :=
  {| title := "Rules"; url := Some (PAGES_URL +:+ "/rules"); description := None |}.

Definition site_rules (ctx : Context) (rules : list Z) : M unit :=
  match rules with
  | [] =>
      emit (SendEmbed
              {| title := title rules_embed; url := url rules_embed;
                 description :=
                   Some ("The rules and guidelines that apply to this community can be found on"
                         +:+ " our [rules page](" +:+ PAGES_URL +:+ "/rules). We expect"
                         +:+ " all members of the community to have read and understood these.") |})
  | _ =>
      full_rules <- api_client_get "rules" (<["link_format" := "md"]> ∅) ;;
      invalid_indices <- lift (invalid_picks full_rules rules) ;;
      match invalid_indices with
      | _ :: _ =>
          ctx_send (":x: Invalid rule indices " +:+ join ", " (map str_int invalid_indices))
      | [] =>
          final_rules <- lift (pick_rules full_rules rules) ;;
          emit (Paginate final_rules rules_embed)
      end
  end.

End Commands.

(** ** Vocabulary of the statements *)

(** The state [b] after the events [evs] and nothing else: same cache, same
    guild. *)
Definition extends (b : Bot) (evs : list event) : Bot :=
  {| watched_users := watched_users b; guild := guild b; trace := trace b ++ evs |}.

(** The requests a trace sent to the store, in order. *)
Fixpoint store_calls (evs : list event) : list request :=
  match evs with
  | [] => []
  | Call r :: rest => r :: store_calls rest
  | _ :: rest => store_calls rest
  end.

(** The requests sent while a command ran from the state [b]. *)
Definition calls_during {A} (b : Bot) (run : result A * Bot) : list request :=
  store_calls (drop (length (trace b)) (trace (snd run))).

Definition is_log (e : event) : Prop :=
  match e with
  | Log _ _ => True
  | _ => False
  end.

(** The request bodies and targets of the three commands. *)
Definition create_body (ctx : Context) (user : Account) (reason : string) : json :=
  JObj [("actor", JNum (acc_id (author ctx))); ("reason", JStr reason); ("user", JNum (acc_id user))].

Definition active_of (user : Account) : gmap string string :=
  api_default_params ∪ <["user__id" := str_int (acc_id user)]> ∅.

Definition history_of (user : Account) : gmap string string :=
  <["user__id" := str_int (acc_id user)]> (<["ordering" := "-active,-inserted_at"]> ∅).

Definition end_body (reason : string) : json :=
  JObj [("end_reason", JStr reason); ("active", JBool false)].

Definition nomination_path (nomination_id : string) : string :=
  api_endpoint +:+ "/" +:+ nomination_id.

(** The requested indices that are negative or not below [n], in the order
    of the request. *)
Definition out_of_range (n : nat) (rules : list Z) : list Z :=
  List.filter (fun pick => (pick <? 0) || (Z.of_nat n <=? pick)) rules.

(** A create response with status 400 whose body reports an error for the
    field [user]. *)
Definition user_field_error (status : Z) (body : option json) : bool :=
  (status =? 400)
  && match body with
     | Some (JObj fields) =>
         match assoc "user" fields with
         | Some v => truthy v
         | None => false
         end
     | _ => false
     end.

(** The messages of the commands. *)
Definition msg_only_humans (ctx : Context) : string :=
  ":x: I'm sorry " +:+ acc_str (author ctx) +:+ ", I'm afraid I can't do that. I only watch humans.".
Definition msg_staff : string :=
  ":x: Nominating staff members, eh? Here's a cookie :cookie:".
Definition msg_refresh_failed (user : Account) : string :=
  ":x: Failed to update the user cache; can't add " +:+ acc_str user.
Definition msg_already_watched : string :=
  ":x: The specified user is already being watched in the talent pool".
Definition msg_unknown_user : string :=
  ":x: The specified user can't be found in the database tables".
Definition msg_watching (user : Account) : string :=
  ":white_check_mark: Messages sent by " +:+ acc_str user
  +:+ " will now be relayed to the talent pool channel".
Definition msg_no_active : string :=
  ":x: The specified user does not have an active nomination".
Definition msg_unwatched (user : Account) : string :=
  ":white_check_mark: Messages sent by " +:+ acc_str user +:+ " will no longer be relayed".
Definition msg_no_such_nomination (nomination_id : Z) : string :=
  ":x: Can't find a nomination with id `" +:+ str_int nomination_id +:+ "`".
Definition msg_updated (field : string) : string :=
  ":white_check_mark: Updated the " +:+ field +:+ " of the nomination!".

(** ** Concrete surroundings, for running the commands *)

Definition demo_config : Config :=
  {| Roles_owner := 267627879762755584;
     Roles_admin := 267628507062992896;
     Roles_moderator := 267629731250176001;
     Roles_helpers := 267630620367257601;
     PAGES_URL := "https://pythondiscord.com/pages";
     _url_for := fun endpoint => "https://api.pythondiscord.com/" +:+ endpoint;
     format_infraction := fun timestamp =>
                            match timestamp with
                            | JStr s => Return s
                            | _ => Raise TypeError
                            end;
     py_repr := fun _ => "[...]" |}.

(** A store that answers every request of one kind the same way. *)
Definition fixed_store (listing patched : api_reply) (created : http_reply) : Store :=
  {| api_get := fun _ _ _ => listing;
     api_patch := fun _ _ _ => patched;
     session_post := fun _ _ _ => created |}.

Definition moderator : Account :=
  {| acc_id := 100; acc_bot := false; acc_roles := Some [267629731250176001];
     acc_str := "mod#0001"; acc_display_name := "mod" |}.

Definition human : Account :=
  {| acc_id := 7; acc_bot := false; acc_roles := Some [5];
     acc_str := "ada#1815"; acc_display_name := "ada" |}.

Definition robot : Account :=
  {| acc_id := 8; acc_bot := true; acc_roles := None;
     acc_str := "beep#0000"; acc_display_name := "beep" |}.

Definition demo_ctx : Context := {| author := moderator |}.

Definition nomination_of_human : json :=
  JObj [("id", JNum 31); ("active", JBool true); ("actor", JNum 100);
        ("inserted_at", JStr "2019-09-14T20:10:00Z"); ("reason", JStr "helpful");
        ("user", JNum 7)].

(** A store that lists no active nomination, whatever has been created, and
    accepts every request. *)
Definition accepting_store : Store :=
  fixed_store (Reply (JList [])) (Reply JNull) (Response 201 (Some nomination_of_human)).

(** A store that answers every request with the same error status. *)
Definition failing_store (status : Z) : Store :=
  fixed_store (Rejected status) (Rejected status) (Response status None).

(** A store that accepts a create request and cannot list afterwards. *)
Definition flaky_store : Store :=
  {| api_get := fun past _ _ =>
                  if existsb (fun r => match r with SessionPost _ _ => true | _ => false end)
                       (store_calls past)
                  then Rejected 503
                  else Reply (JList []);
     api_patch := fun _ _ _ => Rejected 503;
     session_post := fun _ _ _ => Response 201 (Some nomination_of_human) |}.

(** A store that lists the nomination of [human] as the only active one. *)
Definition listing_store : Store :=
  fixed_store (Reply (JList [nomination_of_human])) (Reply nomination_of_human)
    (Response 201 (Some nomination_of_human)).

(** A store that lists the nomination of [human] once it has been created. *)
Definition remembering_store : Store :=
  {| api_get := fun past _ _ =>
                  if existsb (fun r => match r with SessionPost _ _ => true | _ => false end)
                       (store_calls past)
                  then Reply (JList [nomination_of_human])
                  else Reply (JList []);
     api_patch := fun _ _ _ => Reply nomination_of_human;
     session_post := fun _ _ _ => Response 201 (Some nomination_of_human) |}.

(** A store that lists the same user with two active nominations. *)
Definition doubled_store : Store :=
  fixed_store (Reply (JList [nomination_of_human; nomination_of_human]))
    (Reply nomination_of_human) (Response 201 (Some nomination_of_human)).

(** A store that answers a fetch with the nomination itself. *)
Definition record_store : Store :=
  fixed_store (Reply nomination_of_human) (Reply nomination_of_human)
    (Response 201 (Some nomination_of_human)).

Definition idle_bot : Bot := {| watched_users := ∅; guild := Some ∅; trace := [] |}.

Definition guild_with_moderator : Bot :=
  {| watched_users := ∅;
     guild := Some (<[100 := {| mention := "<@100>" |}]> ∅);
     trace := [] |}.

Definition rules_store : Store :=
  fixed_store (Reply (JList [JStr "Be kind."; JStr "No spam."])) Unreachable NoResponse.

Definition watching_human : Bot :=
  {| watched_users := <[7 := nomination_of_human]> ∅; guild := Some ∅; trace := [] |}.

(** ** Vocabulary of the further properties *)

(** Text without a line break. *)
Fixpoint no_newline (s : string) : bool :=
  match s with
  | EmptyString => true
  | String c rest => negb (Ascii.eqb c LF) && no_newline rest
  end.

(** The events of a trace that answer the user: a message, an embed or a
    pagination. *)
Fixpoint replies (evs : list event) : list event :=
  match evs with
  | [] => []
  | Send content :: rest => Send content :: replies rest
  | SendEmbed embed :: rest => SendEmbed embed :: replies rest
  | Paginate lines embed :: rest => Paginate lines embed :: replies rest
  | _ :: rest => replies rest
  end.

(** The answers sent while a command ran from the state [b]. *)
Definition replies_during {A} (b : Bot) (run : result A * Bot) : list event :=
  replies (drop (length (trace b)) (trace (snd run))).

Definition returned {A} (run : result A * Bot) : bool :=
  match fst run with
  | Return _ => true
  | Raise _ => false
  end.

(** How the summary shows the actor: a member of the guild by mention,
    anyone else by the raw value of the [actor] entry. *)
Definition actor_text {C : Config} (actor : option Member) (actor_id : json) : string :=
  match actor with
  | Some member => mention member
  | None => py_str actor_id
  end.

(** The embed and the notice of the history command. *)
Definition history_embed (user : Account) : Embed :=
  {| title := "Nominations for " +:+ acc_display_name user
              +:+ " `(" +:+ str_int (acc_id user) +:+ ")`";
     url := None; description := None |}.

Definition msg_never_nominated : string := ":warning: This user has never been nominated".

(** The embed the rules command sends when no index is given. *)
Definition default_rules_embed {C : Config} : Embed :=
  {| title := "Rules";
     url := Some (PAGES_URL +:+ "/rules");
     description :=
       Some ("The rules and guidelines that apply to this community can be found on"
             +:+ " our [rules page](" +:+ PAGES_URL +:+ "/rules). We expect"
             +:+ " all members of the community to have read and understood these.") |}.

(** *** More concrete surroundings *)

Definition ended_nomination : json :=
  JObj [("id", JNum 12); ("active", JBool false); ("actor", JNum 100);
        ("inserted_at", JStr "2019-05-02T09:30:00Z"); ("reason", JStr "active in help channels");
        ("ended_at", JStr "2019-06-11T18:00:00Z"); ("end_reason", JStr "became a helper");
        ("user", JNum 7)].

(** A store that holds the ended nomination and accepts every update. *)
Definition ended_record_store : Store :=
  fixed_store (Reply ended_nomination) (Reply JNull) NoResponse.

Definition two_line_nomination : json :=
  JObj [("id", JNum 33); ("active", JBool true); ("actor", JNum 100);
        ("inserted_at", JStr "2019-09-14T20:10:00Z");
        ("reason", JStr ("helpful" +:+ NL +:+ "and kind")); ("user", JNum 7)].

Definition nomination_without_reason : json :=
  JObj [("id", JNum 34); ("active", JBool true); ("actor", JNum 100);
        ("inserted_at", JStr "2019-09-14T20:10:00Z"); ("user", JNum 7)].

(** A store whose answer to every query is the history of [human]. *)
Definition history_store : Store :=
  fixed_store (Reply (JList [nomination_of_human; ended_nomination])) Unreachable NoResponse.

(** The same history with a record that lacks its reason in the middle. *)
Definition damaged_history_store : Store :=
  fixed_store (Reply (JList [nomination_of_human; nomination_without_reason; ended_nomination]))
    Unreachable NoResponse.

(** A store that answers every query with [null]. *)
Definition null_store : Store := fixed_store (Reply JNull) Unreachable NoResponse.

(** A store that creates the nomination and answers with a body that is not
    JSON. *)
Definition unreadable_store : Store :=
  fixed_store (Reply (JList [])) Unreachable (Response 201 None).

(** ** Proof automation *)

(** Unfolds the monad and the commands down to the store's answers. *)
Ltac exec :=
  unfold watch_command, unwatch_command, edit_reason_command, site_rules,
    _remove_user, bind, ret, raise, lift, attempt, ctx_send, log, emit,
    get_watched_users, set_watched_users, get_guild, api_client_get,
    api_client_patch, post, extends in *;
  simpl in *.

(** Closes a case in which the last message of a run would have to be two
    different messages at once. *)
Ltac other_message H :=
  exfalso; revert H;
  unfold msg_watching, msg_only_humans, msg_staff, msg_refresh_failed,
    msg_already_watched, msg_unknown_user;
  simpl; intros H; discriminate H.

(** Closes a goal whose premise finds an update among requests that hold
    none. *)
Ltac no_update :=
  let Hin := fresh "Hin" in
  simpl; intros Hin; apply list_elem_of_In in Hin; simpl in Hin;
  repeat (destruct Hin as [Hin | Hin]; [discriminate Hin |]); destruct Hin.

(** ** Running the commands *)

Section Runs.
Context {C : Config} {S : Store}.

(** *** The primitives and the refresh *)

Lemma extends_app b evs evs' : extends (extends b evs) evs' = extends b (evs ++ evs').
Proof. unfold extends; simpl. by rewrite <- app_assoc. Qed.

Lemma api_client_get_run endpoint params b :
  api_client_get endpoint params b
  = (of_api_reply (api_get (trace b) endpoint params), extends b [Call (ApiGet endpoint params)]).
Proof. reflexivity. Qed.

Lemma api_client_patch_run endpoint body b :
  api_client_patch endpoint body b
  = (of_api_reply (api_patch (trace b) endpoint body), extends b [Call (ApiPatch endpoint body)]).
Proof. reflexivity. Qed.

(** The refresh either fails and changes nothing but the trace, or succeeds
    and replaces the cache; it sends exactly one request. *)
Lemma fetch_user_cache_run b :
  let b1 := extends b [Call (ApiGet api_endpoint api_default_params)] in
  (fetch_user_cache b = (Return false, b1))
  ∨ (∃ records cache,
        api_get (trace b) api_endpoint api_default_params = Reply (JList records)
        ∧ index_by_user records ∅ = Some cache
        ∧ fetch_user_cache b
          = (Return true, {| watched_users := cache; guild := guild b; trace := trace b1 |})).
Proof.
  unfold fetch_user_cache, bind, attempt. rewrite api_client_get_run.
  destruct (api_get (trace b) api_endpoint api_default_params) as [data|status|]; simpl; auto.
  destruct data; simpl; auto.
  destruct (index_by_user items ∅) as [cache|] eqn:Hidx; simpl; auto.
  right. exists items, cache. auto.
Qed.

(** *** The watch command, case by case *)

Lemma watch_refused_run ctx user reason b :
  acc_bot user = true ∨ is_staff_member user = true →
  watch_command ctx user reason b
  = (Return tt, extends b [Send (if acc_bot user then msg_only_humans ctx else msg_staff)]).
Proof.
  intros [Hbot | Hstaff]; unfold watch_command.
  - rewrite Hbot. reflexivity.
  - rewrite Hstaff. destruct (acc_bot user); reflexivity.
Qed.

(** Past the two policy checks, a failed refresh ends the command. *)
Lemma watch_refresh_failed_run ctx user reason b :
  acc_bot user = false →
  is_staff_member user = false →
  fst (fetch_user_cache b) = Return false →
  watch_command ctx user reason b
  = (Return tt, extends b [Call (ApiGet api_endpoint api_default_params);
                           Send (msg_refresh_failed user)]).
Proof.
  intros Hbot Hstaff Hfail. unfold watch_command. rewrite Hbot, Hstaff.
  destruct (fetch_user_cache_run b) as [Hrun | (records & cache & _ & _ & Hrun)];
    rewrite Hrun in Hfail; simpl in Hfail; [| discriminate].
  unfold bind. rewrite Hrun. simpl. unfold ctx_send, emit, extends. simpl.
  by rewrite <- app_assoc.
Qed.

Lemma watch_past_refresh ctx user reason b br :
  acc_bot user = false →
  is_staff_member user = false →
  fetch_user_cache b = (Return true, br) →
  watch_command ctx user reason b
  = match watched_users br !! acc_id user with
    | Some _ => (Return tt, extends br [Send msg_already_watched])
    | None =>
        let target := _url_for api_endpoint in
        let b2 := extends br [Call (SessionPost target (create_body ctx user reason))] in
        match session_post (trace br) target (create_body ctx user reason) with
        | NoResponse => (Raise ClientConnectionError, b2)
        | Response status None => (Raise ContentTypeError, b2)
        | Response status (Some data) =>
            if status =? 400 then
              match py_get_or_false data "user" with
              | Raise e => (Raise e, b2)
              | Return v =>
                  if truthy v then (Return tt, extends b2 [Send msg_unknown_user])
                  else (Raise (ClientResponseError status), b2)
              end
            else if 400 <=? status then (Raise (ClientResponseError status), b2)
            else (Return tt,
                  {| watched_users := <[acc_id user := data]> (watched_users br);
                     guild := guild br;
                     trace := trace b2 ++ [Send (msg_watching user)] |})
        end
    end.
Proof.
  intros Hbot Hstaff Hrun. unfold watch_command. rewrite Hbot, Hstaff.
  unfold bind at 1. rewrite Hrun. simpl. unfold bind at 1, get_watched_users at 1.
  destruct (watched_users br !! acc_id user) as [cached|] eqn:Hcached.
  - rewrite bool_decide_eq_true_2 by eauto. reflexivity.
  - rewrite bool_decide_eq_false_2 by (intros [? ?]; congruence).
    unfold create_body. exec.
    destruct (session_post _ _ _) as [status [data|]|]; simpl; try reflexivity.
    destruct (status =? 400) eqn:H400; simpl.
    + apply Z.eqb_eq in H400; subst status.
      destruct (py_get_or_false data "user") as [v|e]; simpl; try reflexivity.
      destruct (truthy v); reflexivity.
    + unfold raise_for_status. destruct (400 <=? status); reflexivity.
Qed.

Lemma last_two {A} (l : list A) (x y : A) : last (l ++ [x; y]) = Some y.
Proof. change [x; y] with ([x] ++ [y]). by rewrite app_assoc, last_snoc. Qed.

(** A run that ends with the confirmation went through the whole command. *)
Lemma watch_confirmed_inv ctx user reason b b1 :
  watch_command ctx user reason b = (Return tt, b1) →
  last (trace b1) = Some (Send (msg_watching user)) →
  acc_bot user = false ∧ is_staff_member user = false
  ∧ ∃ br status data,
      fetch_user_cache b = (Return true, br)
      ∧ watched_users br !! acc_id user = None
      ∧ session_post (trace br) (_url_for api_endpoint) (create_body ctx user reason)
        = Response status (Some data)
      ∧ status < 400
      ∧ b1 = {| watched_users := <[acc_id user := data]> (watched_users br);
                guild := guild br;
                trace := trace br ++ [Call (SessionPost (_url_for api_endpoint)
                                              (create_body ctx user reason));
                                      Send (msg_watching user)] |}.
Proof.
  intros Hrun Hlast.
  destruct (acc_bot user) eqn:Hbot.
  { rewrite watch_refused_run in Hrun by auto. rewrite Hbot in Hrun.
    injection Hrun as <-. simpl in Hlast. rewrite last_snoc in Hlast. other_message Hlast. }
  destruct (is_staff_member user) eqn:Hstaff.
  { rewrite watch_refused_run in Hrun by auto. rewrite Hbot in Hrun.
    injection Hrun as <-. simpl in Hlast. rewrite last_snoc in Hlast. other_message Hlast. }
  do 2 (split; [reflexivity |]).
  destruct (fetch_user_cache_run b) as [Hfetch | (records & cache & _ & _ & Hfetch)].
  { rewrite watch_refresh_failed_run in Hrun by (rewrite ?Hfetch; auto).
    injection Hrun as <-. simpl in Hlast. rewrite last_two in Hlast. other_message Hlast. }
  rewrite (watch_past_refresh _ _ _ _ _ Hbot Hstaff Hfetch) in Hrun.
  simpl in Hrun.
  destruct (cache !! acc_id user) as [cached|] eqn:Hcached.
  { injection Hrun as <-. simpl in Hlast. rewrite last_snoc in Hlast. other_message Hlast. }
  destruct (session_post _ _ _) as [status [data|]|] eqn:Hpost; try discriminate Hrun.
  destruct (status =? 400) eqn:H400.
  { destruct (py_get_or_false data "user") as [v|e]; try discriminate Hrun.
    destruct (truthy v); try discriminate Hrun.
    injection Hrun as <-. simpl in Hlast. rewrite last_snoc in Hlast. other_message Hlast. }
  destruct (400 <=? status) eqn:Hstatus; try discriminate Hrun.
  injection Hrun as <-. eexists _, status, data. simpl.
  split; [exact Hfetch |]. simpl.
  split; [exact Hcached |]. split; [exact Hpost |].
  split; [apply Z.leb_gt in Hstatus; lia |].
  by rewrite <- app_assoc.
Qed.

(** *** The unwatch and edit commands as functions of the store's answers *)

Lemma unwatch_command_run ctx user reason b :
  let listing := ApiGet api_endpoint (active_of user) in
  let b1 := extends b [Call listing] in
  unwatch_command ctx user reason b
  = match api_get (trace b) api_endpoint (active_of user) with
    | Rejected status => (Raise (ResponseCodeError status), b1)
    | Unreachable => (Raise ClientConnectionError, b1)
    | Reply found =>
        if truthy found then
          match unpack_single found with
          | Raise e => (Raise e, b1)
          | Return nomination =>
              match py_getitem_str nomination "id" with
              | Raise e => (Raise e, b1)
              | Return nomination_id =>
                  let path := nomination_path (py_str nomination_id) in
                  let b2 := extends b1 [Call (ApiPatch path (end_body reason))] in
                  match api_patch (trace b1) path (end_body reason) with
                  | Rejected status => (Raise (ResponseCodeError status), b2)
                  | Unreachable => (Raise ClientConnectionError, b2)
                  | Reply _ =>
                      (Return tt,
                       {| watched_users := delete (acc_id user) (watched_users b);
                          guild := guild b;
                          trace := trace b2 ++ [Send (msg_unwatched user)] |})
                  end
              end
          end
        else (Return tt, extends b1 [Send msg_no_active])
    end.
Proof.
  unfold unwatch_command, active_of, nomination_path, end_body. exec.
  destruct (api_get _ _ _) as [found|status|]; simpl; try reflexivity.
  destruct (truthy found); simpl; try reflexivity.
  destruct (unpack_single found) as [nomination|e]; simpl; try reflexivity.
  destruct (py_getitem_str nomination "id") as [nomination_id|e]; simpl; try reflexivity.
  destruct (api_patch _ _ _) as [patched|status|]; reflexivity.
Qed.

Lemma edit_reason_command_run ctx nomination_id reason b :
  let path := nomination_path (str_int nomination_id) in
  let b1 := extends b [Call (ApiGet path ∅)] in
  edit_reason_command ctx nomination_id reason b
  = match api_get (trace b) path ∅ with
    | Rejected status =>
        if status =? 404 then
          (Return tt,
           extends b1 [Log "TRACE" ("Nomination API 404: Can't nomination with id "
                                    +:+ str_int nomination_id);
                       Send (msg_no_such_nomination nomination_id)])
        else (Raise (ResponseCodeError status), b1)
    | Unreachable => (Raise ClientConnectionError, b1)
    | Reply nomination =>
        match py_getitem_str nomination "active" with
        | Raise e => (Raise e, b1)
        | Return active =>
            let field := if truthy active then "reason" else "end_reason" in
            let b2 := extends b1 [Log "TRACE" ("Changing " +:+ field +:+ " for nomination with id "
                                               +:+ str_int nomination_id +:+ " to " +:+ reason);
                                  Call (ApiPatch path (JObj [(field, JStr reason)]))] in
            match api_patch (trace b1 ++ [Log "TRACE" ("Changing " +:+ field
                                            +:+ " for nomination with id "
                                            +:+ str_int nomination_id +:+ " to " +:+ reason)])
                            path (JObj [(field, JStr reason)]) with
            | Rejected status => (Raise (ResponseCodeError status), b2)
            | Unreachable => (Raise ClientConnectionError, b2)
            | Reply _ => (Return tt, extends b2 [Send (msg_updated field)])
            end
        end
    end.
Proof.
  unfold edit_reason_command, nomination_path, msg_no_such_nomination, msg_updated. exec.
  destruct (api_get _ _ _) as [nomination|status|]; simpl; try reflexivity.
  - destruct (py_getitem_str nomination "active") as [active|e]; simpl; try reflexivity.
    rewrite <- !app_assoc. simpl.
    destruct (api_patch _ _ _) as [patched|status|]; simpl; rewrite <- ?app_assoc; reflexivity.
  - destruct (status =? 404); simpl; rewrite <- ?app_assoc; reflexivity.
Qed.

(** The requests of an edit whose fetch returned a record with an [active]
    entry: the fetch and one update, whatever the store answers to it. *)
Lemma edit_reason_command_calls ctx nomination_id reason b nomination active :
  let path := nomination_path (str_int nomination_id) in
  api_get (trace b) path ∅ = Reply nomination →
  py_getitem_str nomination "active" = Return active →
  calls_during b (edit_reason_command ctx nomination_id reason b)
  = [ApiGet path ∅;
     ApiPatch path (JObj [(if truthy active then "reason" else "end_reason", JStr reason)])].
Proof.
  intros path Hget Hactive. unfold calls_during.
  rewrite edit_reason_command_run. cbv zeta. fold path.
  rewrite Hget, Hactive.
  destruct (api_patch _ path _); simpl; rewrite <- ?app_assoc, drop_app_length; reflexivity.
Qed.

(** *** No request is repeated *)

Lemma store_calls_app evs evs' : store_calls (evs ++ evs') = store_calls evs ++ store_calls evs'.
Proof. induction evs as [|[] evs IH]; simpl; rewrite ?IH; reflexivity. Qed.

Lemma store_calls_logs logs : Forall is_log logs → store_calls logs = [].
Proof.
  induction 1 as [|e logs He _ IH]; [reflexivity |].
  destruct e; simpl in *; try contradiction. exact IH.
Qed.

Lemma no_call_twice_1 b (r : request) (tail : list event) :
  store_calls tail = [] →
  NoDup (store_calls (drop (length (trace b)) (trace b ++ Call r :: tail))).
Proof.
  intros Htail. rewrite drop_app_length. simpl. rewrite Htail.
  apply NoDup_singleton.
Qed.

Lemma no_call_twice_2 b (r1 r2 : request) (mid tail : list event) :
  r1 ≠ r2 →
  store_calls mid = [] →
  store_calls tail = [] →
  NoDup (store_calls (drop (length (trace b)) (trace b ++ Call r1 :: mid ++ Call r2 :: tail))).
Proof.
  intros Hne Hmid Htail. rewrite drop_app_length. simpl.
  rewrite store_calls_app, Hmid. simpl. rewrite Htail.
  apply NoDup_cons. split; [| apply NoDup_singleton].
  rewrite list_elem_of_singleton. exact Hne.
Qed.

Lemma watch_command_no_retry ctx user reason b :
  NoDup (calls_during b (watch_command ctx user reason b)).
Proof.
  unfold calls_during.
  destruct (acc_bot user) eqn:Hbot.
  { rewrite watch_refused_run by auto. simpl. rewrite drop_app_length. simpl. constructor. }
  destruct (is_staff_member user) eqn:Hstaff.
  { rewrite watch_refused_run by auto. simpl. rewrite drop_app_length. simpl. constructor. }
  destruct (fetch_user_cache_run b) as [Hfetch | (records & cache & _ & _ & Hfetch)].
  { rewrite watch_refresh_failed_run by (rewrite ?Hfetch; auto). simpl.
    by apply no_call_twice_1. }
  rewrite (watch_past_refresh _ _ _ _ _ Hbot Hstaff Hfetch). simpl.
  destruct (cache !! acc_id user).
  { simpl. rewrite <- app_assoc. by apply no_call_twice_1. }
  assert (Htwo : ∀ tail, store_calls tail = [] →
            NoDup (store_calls (drop (length (trace b))
                     (((trace b ++ [Call (ApiGet api_endpoint api_default_params)])
                       ++ [Call (SessionPost (_url_for api_endpoint)
                                   (create_body ctx user reason))]) ++ tail)))).
  { intros tail Htail. rewrite <- !app_assoc, drop_app_length. simpl. rewrite Htail.
    apply NoDup_cons. split; [| apply NoDup_singleton].
    rewrite list_elem_of_singleton. discriminate. }
  destruct (session_post _ _ _) as [status [data|]|]; simpl;
    try (rewrite <- (app_nil_r (_ ++ [Call (SessionPost _ _)])); by apply Htwo).
  destruct (status =? 400).
  - destruct (py_get_or_false data "user") as [v|e]; simpl;
      try (rewrite <- (app_nil_r (_ ++ [Call (SessionPost _ _)])); by apply Htwo).
    destruct (truthy v); simpl;
      try (rewrite <- (app_nil_r (_ ++ [Call (SessionPost _ _)])); by apply Htwo).
    by apply Htwo.
  - destruct (400 <=? status); simpl;
      try (rewrite <- (app_nil_r (_ ++ [Call (SessionPost _ _)])); by apply Htwo).
    by apply Htwo.
Qed.

Lemma unwatch_command_no_retry ctx user reason b :
  NoDup (calls_during b (unwatch_command ctx user reason b)).
Proof.
  unfold calls_during. rewrite unwatch_command_run. cbv zeta.
  destruct (api_get _ _ _) as [found|status|]; simpl; try by apply no_call_twice_1.
  destruct (truthy found); simpl; [| rewrite <- app_assoc; by apply no_call_twice_1].
  destruct (unpack_single found) as [nomination|e]; simpl; try by apply no_call_twice_1.
  destruct (py_getitem_str nomination "id") as [nomination_id|e]; simpl;
    try by apply no_call_twice_1.
  destruct (api_patch _ _ _) as [patched|status|]; simpl; rewrite <- !app_assoc; simpl;
    by apply (no_call_twice_2 b _ _ []).
Qed.

Lemma edit_reason_command_no_retry ctx nomination_id reason b :
  NoDup (calls_during b (edit_reason_command ctx nomination_id reason b)).
Proof.
  unfold calls_during. rewrite edit_reason_command_run. cbv zeta.
  destruct (api_get _ _ _) as [nomination|status|]; simpl; try by apply no_call_twice_1.
  - destruct (py_getitem_str nomination "active") as [active|e]; simpl;
      try by apply no_call_twice_1.
    destruct (api_patch _ _ _) as [patched|status|]; simpl; rewrite <- !app_assoc; simpl;
      by apply (no_call_twice_2 b _ _ [_]).
  - destruct (status =? 404); simpl; rewrite <- ?app_assoc; by apply no_call_twice_1.
Qed.

(** *** Rendering *)

(** The rendering, with the guild lookup and the log lines made explicit. *)
Lemma nomination_to_string_run nomination b :
  ∃ logs,
    Forall is_log logs
    ∧ snd (_nomination_to_string nomination b) = extends b logs
    ∧ ∀ b',
        (∀ actor_id, py_getitem_str nomination "actor" = Return actor_id →
                     get_member (guild b) actor_id = get_member (guild b') actor_id) →
        fst (_nomination_to_string nomination b') = fst (_nomination_to_string nomination b).
Proof.
  destruct b as [cache g tr].
  assert (Hnil : ∀ t : list event, t = t ++ []) by (intros; by rewrite app_nil_r).
  unfold _nomination_to_string. exec.
  destruct (py_getitem_str nomination "actor") as [actor_id|e] eqn:Hactor; simpl.
  2: { exists []. rewrite <- Hnil. repeat split; auto. }
  destruct (get_member g actor_id) as [actor|e] eqn:Hmember; simpl.
  2: { exists []. rewrite <- Hnil. repeat split; auto.
       intros [cache' g' tr'] Hsame. simpl in *.
       rewrite <- (Hsame _ eq_refl), Hmember. reflexivity. }
  destruct (py_getitem_str nomination "active") as [active|e] eqn:Hactive; simpl.
  2: { exists []. rewrite <- Hnil. repeat split; auto.
       intros [cache' g' tr'] Hsame. simpl in *.
       rewrite <- (Hsame _ eq_refl), Hmember. reflexivity. }
  set (l1 := Log "DEBUG" (py_str active)).
  destruct (py_getitem_str nomination "inserted_at") as [inserted_at|e] eqn:Hinserted; simpl.
  2: { exists [l1]. repeat split; auto. { repeat constructor. }
       intros [cache' g' tr'] Hsame. simpl in *.
       rewrite <- (Hsame _ eq_refl), Hmember. reflexivity. }
  set (l2 := Log "DEBUG" ("<class '" +:+ py_type_name inserted_at +:+ "'>")).
  exists [l1; l2]. split; [repeat constructor |].
  split.
  - rewrite <- app_assoc. simpl.
    destruct (format_infraction inserted_at); simpl; try reflexivity.
    destruct (truthy active); simpl.
    + destruct (py_getitem_str nomination "reason"); simpl; try reflexivity.
      destruct (py_getitem_str nomination "id"); reflexivity.
    + destruct (py_getitem_str nomination "ended_at") as [ended_at|]; simpl; try reflexivity.
      destruct (format_infraction ended_at); simpl; try reflexivity.
      destruct (py_getitem_str nomination "reason"); simpl; try reflexivity.
      destruct (py_getitem_str nomination "end_reason"); simpl; try reflexivity.
      destruct (py_getitem_str nomination "id"); reflexivity.
  - intros [cache' g' tr'] Hsame. simpl in *.
    rewrite <- (Hsame _ eq_refl), Hmember. simpl.
    destruct (format_infraction inserted_at); simpl; try reflexivity.
    destruct (truthy active); simpl.
    + destruct (py_getitem_str nomination "reason"); simpl; try reflexivity.
      destruct (py_getitem_str nomination "id"); reflexivity.
    + destruct (py_getitem_str nomination "ended_at") as [ended_at|]; simpl; try reflexivity.
      destruct (format_infraction ended_at); simpl; try reflexivity.
      destruct (py_getitem_str nomination "reason"); simpl; try reflexivity.
      destruct (py_getitem_str nomination "end_reason"); simpl; try reflexivity.
      destruct (py_getitem_str nomination "id"); reflexivity.
Qed.

(** Rendering a list of nominations adds log lines only. *)
Lemma for_each_nomination_to_string_logs nominations b :
  ∃ logs, Forall is_log logs
          ∧ snd (for_each _nomination_to_string nominations b) = extends b logs.
Proof.
  revert b. induction nominations as [|nomination rest IH]; intros b.
  { exists []. split; [constructor |]. destruct b; unfold extends; simpl.
    by rewrite app_nil_r. }
  destruct (nomination_to_string_run nomination b) as (logs1 & Hlogs1 & Hsnd1 & _).
  cbn [for_each]. unfold bind at 1.
  destruct (_nomination_to_string nomination b) as [[line|e] b1]; simpl in Hsnd1; subst b1.
  2: { by exists logs1. }
  destruct (IH (extends b logs1)) as (logs2 & Hlogs2 & Hsnd2).
  unfold bind at 1.
  destruct (for_each _nomination_to_string rest (extends b logs1)) as [[lines|e] b2];
    simpl in Hsnd2; subst b2; exists (logs1 ++ logs2);
    (split; [by apply Forall_app | by rewrite extends_app]).
Qed.

Lemma history_command_rejected ctx user b status :
  api_get (trace b) api_endpoint (history_of user) = Rejected status →
  history_command ctx user b
  = (Raise (ResponseCodeError status), extends b [Call (ApiGet api_endpoint (history_of user))]).
Proof.
  intros Hget. unfold history_command, bind. rewrite api_client_get_run.
  fold (history_of user). by rewrite Hget.
Qed.

Lemma history_command_no_retry ctx user b :
  NoDup (calls_during b (history_command ctx user b)).
Proof.
  unfold calls_during, history_command, bind at 1. rewrite api_client_get_run.
  fold (history_of user).
  destruct (api_get _ _ _) as [history|status|]; cbn [of_api_reply];
    try by apply no_call_twice_1.
  destruct (truthy history); cbn [negb].
  2: { unfold ctx_send, emit. simpl. rewrite <- app_assoc. by apply no_call_twice_1. }
  unfold bind at 1, lift at 1.
  destruct (py_iter history) as [nominations|e]; [| by apply no_call_twice_1].
  set (b1 := extends b [Call (ApiGet api_endpoint (history_of user))]).
  destruct (for_each_nomination_to_string_logs nominations b1) as (logs & Hlogs & Hsnd).
  unfold bind at 1.
  destruct (for_each _nomination_to_string nominations b1) as [[lines|e] b2];
    simpl in Hsnd; subst b2; unfold emit; simpl; rewrite <- !app_assoc; simpl;
    apply no_call_twice_1; rewrite ?store_calls_app, (store_calls_logs logs Hlogs);
    reflexivity.
Qed.

(** *** Index checks of the rules command *)

Lemma invalid_picks_list items rules :
  invalid_picks (JList items) rules = Return (out_of_range (length items) rules).
Proof.
  induction rules as [|pick rest IH]; simpl; [reflexivity |].
  rewrite IH. unfold out_of_range at 2. simpl.
  destruct (pick <? 0); simpl; [reflexivity |].
  destruct (Z.of_nat (length items) <=? pick); reflexivity.
Qed.

Lemma invalid_picks_raise full_rules rules e :
  invalid_picks full_rules rules = Raise e → e = TypeError.
Proof.
  induction rules as [|pick rest IH]; simpl; [discriminate |].
  destruct (pick <? 0).
  - destruct (invalid_picks full_rules rest); [discriminate |].
    intros H; injection H as <-. by apply IH.
  - destruct (py_len full_rules) as [n|e'] eqn:Hlen.
    + destruct (invalid_picks full_rules rest); [discriminate |].
      intros H; injection H as <-. by apply IH.
    + intros H; injection H as <-.
      destruct full_rules; simpl in Hlen; congruence.
Qed.

Lemma characters_in_range (s : string) (n : nat) :
  (n < length (characters s))%nat → ∃ c, nth_error (characters s) n = Some c.
Proof.
  intros Hn. destruct (nth_error (characters s) n) as [c|] eqn:Hnth; [eauto |].
  apply nth_error_None in Hnth. lia.
Qed.

(** An index that passed the check is a position of the fetched value. *)
Lemma py_getitem_int_checked full_rules n pick :
  py_len full_rules = Return n →
  0 ≤ pick < n →
  py_getitem_int full_rules pick ≠ Raise IndexError.
Proof.
  intros Hlen Hpick. destruct full_rules; simpl in *; try discriminate.
  - injection Hlen as <-.
    destruct (pick <? 0) eqn:Hneg; [apply Z.ltb_lt in Hneg; lia |].
    replace (Z.of_nat (length (characters s)) <=? pick) with false
      by (symmetry; apply Z.leb_gt; lia).
    rewrite Hneg. simpl.
    destruct (characters_in_range s (Z.to_nat pick)) as [c ->]; [lia | discriminate].
  - injection Hlen as <-.
    destruct (pick <? 0) eqn:Hneg; [apply Z.ltb_lt in Hneg; lia |].
    replace (Z.of_nat (length items) <=? pick) with false by (symmetry; apply Z.leb_gt; lia).
    rewrite Hneg. simpl.
    destruct (nth_error items (Z.to_nat pick)) eqn:Hnth; [discriminate |].
    apply nth_error_None in Hnth. lia.
Qed.

Lemma pick_rules_checked full_rules rules :
  invalid_picks full_rules rules = Return [] →
  pick_rules full_rules rules ≠ Raise IndexError.
Proof.
  induction rules as [|pick rest IH]; simpl; [discriminate |].
  destruct (pick <? 0) eqn:Hneg.
  { destruct (invalid_picks full_rules rest); discriminate. }
  destruct (py_len full_rules) as [n|e] eqn:Hlen; [| discriminate].
  destruct (n <=? pick) eqn:Hhigh.
  { destruct (invalid_picks full_rules rest); discriminate. }
  destruct (invalid_picks full_rules rest) as [others|e]; [| discriminate].
  intros Hothers. injection Hothers as ->.
  apply Z.ltb_ge in Hneg. apply Z.leb_gt in Hhigh.
  pose proof (py_getitem_int_checked full_rules n pick Hlen (conj Hneg Hhigh)) as Hpick.
  destruct (py_getitem_int full_rules pick) as [rule|e]; [| congruence].
  specialize (IH eq_refl). destruct (pick_rules full_rules rest); [discriminate | congruence].
Qed.

Lemma py_getitem_int_list items pick rule :
  0 ≤ pick →
  nth_error items (Z.to_nat pick) = Some rule →
  py_getitem_int (JList items) pick = Return rule.
Proof.
  intros Hpick Hnth. unfold py_getitem_int.
  assert (Hlen : pick < Z.of_nat (length items)).
  { assert (Z.to_nat pick < length items)%nat; [| lia].
    apply nth_error_Some. congruence. }
  replace (pick <? 0) with false by (symmetry; apply Z.ltb_ge; lia).
  replace (pick <? 0) with false by (symmetry; apply Z.ltb_ge; lia).
  replace (Z.of_nat (length items) <=? pick) with false by (symmetry; apply Z.leb_gt; lia).
  simpl. by rewrite Hnth.
Qed.

Lemma pick_rules_list items rules :
  out_of_range (length items) rules = [] →
  ∃ final_rules,
    pick_rules (JList items) rules = Return final_rules
    ∧ Forall2 (fun pick line =>
                 0 ≤ pick < Z.of_nat (length items)
                 ∧ ∃ rule, nth_error items (Z.to_nat pick) = Some rule
                           ∧ line = "**" +:+ str_int pick +:+ ".** " +:+ py_str rule)
              rules final_rules.
Proof.
  induction rules as [|pick rest IH].
  { intros _. exists []. split; [reflexivity | constructor]. }
  unfold out_of_range. cbn [List.filter]. intros Hrest.
  destruct (pick <? 0) eqn:Hneg; simpl in Hrest; [discriminate |].
  destruct (Z.of_nat (length items) <=? pick) eqn:Hhigh; simpl in Hrest; [discriminate |].
  destruct (IH Hrest) as (others & Hpicked & Hothers).
  apply Z.ltb_ge in Hneg. apply Z.leb_gt in Hhigh.
  destruct (nth_error items (Z.to_nat pick)) as [rule|] eqn:Hnth.
  2: { apply nth_error_None in Hnth. lia. }
  exists (("**" +:+ str_int pick +:+ ".** " +:+ py_str rule) :: others). split.
  - cbn [pick_rules]. rewrite (py_getitem_int_list items pick rule Hneg Hnth), Hpicked.
    reflexivity.
  - constructor; [| exact Hothers]. split; [lia |]. eauto.
Qed.

End Runs.

(** ** The claims *)

Section Claims.
Context {C : Config} {S : Store}.

(** C1 (amended): when the target of a watch command is a bot account, or a
    guild member who holds a staff role, the command sends its refusal and
    returns, whatever the reason string is, the empty one included.  The
    refusal is the only event of the run: the cache is not refreshed, no
    create request is sent, and the cache is as before. *)
Theorem watch_refuses_bots_and_staff ctx user reason b :
  acc_bot user = true ∨ is_staff_member user = true →
  watch_command ctx user reason b
  = (Return tt, extends b [Send (if acc_bot user then msg_only_humans ctx else msg_staff)]).
Proof. apply watch_refused_run. Qed.

(** C2: when a watch command has passed the policy checks and the refresh of
    the cache fails, the command reports the failure and returns: the refresh
    request and the error message are the only events, so no create request
    is sent, and the cache holds what it held before. *)
Theorem watch_aborts_when_refresh_fails ctx user reason b :
  acc_bot user = false →
  is_staff_member user = false →
  fst (fetch_user_cache b) = Return false →
  ∃ b', watch_command ctx user reason b = (Return tt, b')
        ∧ trace b' = trace b ++ [Call (ApiGet api_endpoint api_default_params);
                                 Send (msg_refresh_failed user)]
        ∧ watched_users b' = watched_users b.
Proof.
  intros Hbot Hstaff Hfail. eexists. split.
  - by apply watch_refresh_failed_run.
  - split; reflexivity.
Qed.

(** C3 (amended): after a watch command that ended with its confirmation,
    the cache holds the record returned by the store under the id of the
    user.  Any later watch command for that user refreshes the cache first:
    if the refreshed cache contains the user, the command ends with the
    conflict notice, and if the refresh fails, with the refresh error; in
    both cases no create request is sent. *)
Theorem watch_then_watch_again ctx user reason b b1 :
  watch_command ctx user reason b = (Return tt, b1) →
  last (trace b1) = Some (Send (msg_watching user)) →
  (∃ br status data,
      fetch_user_cache b = (Return true, br)
      ∧ session_post (trace br) (_url_for api_endpoint) (create_body ctx user reason)
        = Response status (Some data)
      ∧ watched_users b1 = <[acc_id user := data]> (watched_users br)
      ∧ watched_users b1 !! acc_id user = Some data)
  ∧ ∀ ctx' reason' b2,
      let refresh := Call (ApiGet api_endpoint api_default_params) in
      match fetch_user_cache b2 with
      | (Return true, br) =>
          is_Some (watched_users br !! acc_id user) →
          ∃ b3, watch_command ctx' user reason' b2 = (Return tt, b3)
                ∧ trace b3 = trace b2 ++ [refresh; Send msg_already_watched]
                ∧ watched_users b3 = watched_users br
      | _ =>
          ∃ b3, watch_command ctx' user reason' b2 = (Return tt, b3)
                ∧ trace b3 = trace b2 ++ [refresh; Send (msg_refresh_failed user)]
                ∧ watched_users b3 = watched_users b2
      end.
Proof.
  intros Hrun Hlast.
  destruct (watch_confirmed_inv _ _ _ _ _ Hrun Hlast)
    as (Hbot & Hstaff & br & status & data & Hfetch & _ & Hpost & _ & ->).
  split.
  - exists br, status, data. simpl. repeat split; try done. apply lookup_insert_eq.
  - intros ctx' reason' b2 refresh.
    destruct (fetch_user_cache_run b2) as [Hfetch2 | (records & cache & _ & _ & Hfetch2)].
    + rewrite Hfetch2. rewrite watch_refresh_failed_run by (rewrite ?Hfetch2; auto).
      eexists. split; [reflexivity |]. split; reflexivity.
    + rewrite Hfetch2. intros [cached Hcached].
      rewrite (watch_past_refresh _ _ _ _ _ Hbot Hstaff Hfetch2). simpl in *.
      rewrite Hcached. eexists. split; [reflexivity |]. simpl.
      split; [by rewrite <- app_assoc | reflexivity].
Qed.

(** C4 (amended): three failures of the store are turned into a message and
    a normal return: a failed refresh of the cache in the watch command, a
    create response with status 400 whose body reports an error for the
    field [user] (the cache is left as refreshed, nothing is inserted), and a
    404 on the fetch in the edit command (no update is sent).  Any other
    error status on the create request, on the fetch and the update of the
    edit command, on the query and the update of the unwatch command and on
    the query of the history command is raised.  No command sends the same
    request twice. *)
Theorem store_failures_soft_or_raised ctx user reason nomination_id b :
  (* Watch: the refresh *)
  (acc_bot user = false → is_staff_member user = false →
   fst (fetch_user_cache b) = Return false →
   watch_command ctx user reason b
   = (Return tt, extends b [Call (ApiGet api_endpoint api_default_params);
                            Send (msg_refresh_failed user)]))
  (* Watch: the create request *)
  ∧ (∀ br status body,
       acc_bot user = false → is_staff_member user = false →
       fetch_user_cache b = (Return true, br) →
       watched_users br !! acc_id user = None →
       session_post (trace br) (_url_for api_endpoint) (create_body ctx user reason)
       = Response status body →
       400 ≤ status →
       let b2 := extends br [Call (SessionPost (_url_for api_endpoint)
                                     (create_body ctx user reason))] in
       if user_field_error status body
       then watch_command ctx user reason b = (Return tt, extends b2 [Send msg_unknown_user])
       else ∃ e, watch_command ctx user reason b = (Raise e, b2))
  (* Edit: the fetch by id *)
  ∧ (∀ status,
       let path := nomination_path (str_int nomination_id) in
       api_get (trace b) path ∅ = Rejected status →
       edit_reason_command ctx nomination_id reason b
       = if status =? 404
         then (Return tt,
               extends b [Call (ApiGet path ∅);
                          Log "TRACE" ("Nomination API 404: Can't nomination with id "
                                       +:+ str_int nomination_id);
                          Send (msg_no_such_nomination nomination_id)])
         else (Raise (ResponseCodeError status), extends b [Call (ApiGet path ∅)]))
  (* Edit: the update *)
  ∧ (∀ nomination active status,
       let path := nomination_path (str_int nomination_id) in
       let field := if truthy active then "reason" else "end_reason" in
       let before := [Call (ApiGet path ∅);
                      Log "TRACE" ("Changing " +:+ field +:+ " for nomination with id "
                                   +:+ str_int nomination_id +:+ " to " +:+ reason)] in
       api_get (trace b) path ∅ = Reply nomination →
       py_getitem_str nomination "active" = Return active →
       api_patch (trace b ++ before) path (JObj [(field, JStr reason)]) = Rejected status →
       edit_reason_command ctx nomination_id reason b
       = (Raise (ResponseCodeError status),
          extends b (before ++ [Call (ApiPatch path (JObj [(field, JStr reason)]))])))
  (* Unwatch: the query *)
  ∧ (∀ status,
       api_get (trace b) api_endpoint (active_of user) = Rejected status →
       unwatch_command ctx user reason b
       = (Raise (ResponseCodeError status),
          extends b [Call (ApiGet api_endpoint (active_of user))]))
  (* Unwatch: the update *)
  ∧ (∀ nomination found_id status,
       let path := nomination_path (py_str found_id) in
       let before := [Call (ApiGet api_endpoint (active_of user))] in
       api_get (trace b) api_endpoint (active_of user) = Reply (JList [nomination]) →
       py_getitem_str nomination "id" = Return found_id →
       api_patch (trace b ++ before) path (end_body reason) = Rejected status →
       unwatch_command ctx user reason b
       = (Raise (ResponseCodeError status),
          extends b (before ++ [Call (ApiPatch path (end_body reason))])))
  (* History: the query *)
  ∧ (∀ status,
       api_get (trace b) api_endpoint (history_of user) = Rejected status →
       history_command ctx user b
       = (Raise (ResponseCodeError status),
          extends b [Call (ApiGet api_endpoint (history_of user))]))
  (* No request is sent twice *)
  ∧ NoDup (calls_during b (watch_command ctx user reason b))
  ∧ NoDup (calls_during b (unwatch_command ctx user reason b))
  ∧ NoDup (calls_during b (edit_reason_command ctx nomination_id reason b))
  ∧ NoDup (calls_during b (history_command ctx user b)).
Proof.
  repeat apply conj.
  - apply watch_refresh_failed_run.
  - intros br status body Hbot Hstaff Hfetch Hcached Hpost Hstatus b2.
    rewrite (watch_past_refresh _ _ _ _ _ Hbot Hstaff Hfetch), Hcached. cbv zeta.
    rewrite Hpost. fold b2. unfold user_field_error.
    destruct body as [data|]; [| rewrite andb_false_r; eauto].
    destruct (status =? 400) eqn:H400; simpl.
    + unfold py_get_or_false. destruct data; eauto.
      destruct (assoc "user" fields) as [v|]; simpl; eauto.
      destruct (truthy v); eauto.
    + apply Z.leb_le in Hstatus. rewrite Hstatus. eauto.
  - intros status path Hget. rewrite edit_reason_command_run. fold path. rewrite Hget.
    destruct (status =? 404); by rewrite ?extends_app.
  - intros nomination active status path field before Hget Hactive Hpatch.
    rewrite edit_reason_command_run. fold path. rewrite Hget, Hactive. fold field.
    subst before. simpl in *. rewrite <- app_assoc. simpl. rewrite Hpatch.
    by rewrite extends_app.
  - intros status Hget. by rewrite unwatch_command_run, Hget.
  - intros nomination found_id status path before Hget Hid Hpatch.
    rewrite unwatch_command_run, Hget. simpl. rewrite Hid. fold path.
    subst before. simpl in *. rewrite Hpatch. by rewrite extends_app.
  - intros status Hget. by apply history_command_rejected.
  - apply watch_command_no_retry.
  - apply unwatch_command_no_retry.
  - apply edit_reason_command_no_retry.
  - apply history_command_no_retry.
Qed.

(** C5: for a user with exactly one active nomination, the unwatch command
    sends the update with [end_reason] and [active = false]; if the store
    accepts it, the command confirms and the user is evicted from the cache;
    if the store rejects it or cannot be reached, the command raises right
    after the update request and the cache is as before, so the user stays
    in it. *)
Theorem unwatch_evicts_only_after_update ctx user reason b nomination nomination_id :
  api_get (trace b) api_endpoint (active_of user) = Reply (JList [nomination]) →
  py_getitem_str nomination "id" = Return nomination_id →
  let b1 := extends b [Call (ApiGet api_endpoint (active_of user))] in
  let path := nomination_path (py_str nomination_id) in
  let update := Call (ApiPatch path (end_body reason)) in
  match api_patch (trace b1) path (end_body reason) with
  | Reply _ =>
      ∃ b', unwatch_command ctx user reason b = (Return tt, b')
            ∧ trace b' = trace b1 ++ [update; Send (msg_unwatched user)]
            ∧ watched_users b' = delete (acc_id user) (watched_users b)
  | Rejected _ | Unreachable =>
      ∃ e b', unwatch_command ctx user reason b = (Raise e, b')
              ∧ trace b' = trace b1 ++ [update]
              ∧ watched_users b' = watched_users b
  end.
Proof.
  intros Hlist Hid b1 path update. rewrite unwatch_command_run, Hlist. simpl.
  rewrite Hid. fold path. subst b1. simpl.
  destruct (api_patch _ path _) as [data|status|];
    repeat eexists; simpl; by rewrite <- ?app_assoc.
Qed.

(** C6: when the store lists no active nomination for the user, the unwatch
    command answers that there is nothing to end: the query and the notice
    are the only events, no update is sent, and cache and guild are
    unchanged. *)
Theorem unwatch_without_active_nomination ctx user reason b :
  api_get (trace b) api_endpoint (active_of user) = Reply (JList []) →
  unwatch_command ctx user reason b
  = (Return tt, extends b [Call (ApiGet api_endpoint (active_of user)); Send msg_no_active]).
Proof.
  intros Hlist. rewrite unwatch_command_run, Hlist. simpl. by rewrite extends_app.
Qed.

(** C7: when the store lists more than one active nomination for the user,
    the unwatch command raises (the unpacking into one record fails) right
    after the query: no update is sent and the cache is unchanged. *)
Theorem unwatch_rejects_several_matches ctx user reason b records :
  api_get (trace b) api_endpoint (active_of user) = Reply (JList records) →
  (1 < length records)%nat →
  unwatch_command ctx user reason b
  = (Raise ValueError, extends b [Call (ApiGet api_endpoint (active_of user))]).
Proof.
  intros Hlist Hmany. rewrite unwatch_command_run, Hlist.
  destruct records as [|first [|second others]]; simpl in Hmany; try lia. reflexivity.
Qed.

(** C8: when the fetch of the edit command succeeds, the command sends
    exactly one update, whose body has exactly one field.  If the [active]
    entry of the fetched record is [true], the update is
    [{"reason": reason}]; if it is [false], the update is
    [{"end_reason": reason}].  In neither case does the body carry the other
    field. *)
Theorem edit_updates_exactly_one_field ctx nomination_id reason b nomination :
  let path := nomination_path (str_int nomination_id) in
  api_get (trace b) path ∅ = Reply nomination →
  (py_getitem_str nomination "active" = Return (JBool true) →
   calls_during b (edit_reason_command ctx nomination_id reason b)
   = [ApiGet path ∅; ApiPatch path (JObj [("reason", JStr reason)])])
  ∧ (py_getitem_str nomination "active" = Return (JBool false) →
     calls_during b (edit_reason_command ctx nomination_id reason b)
     = [ApiGet path ∅; ApiPatch path (JObj [("end_reason", JStr reason)])]).
Proof.
  intros path Hget.
  split; intros Hactive;
    exact (edit_reason_command_calls ctx nomination_id reason b nomination _ Hget Hactive).
Qed.

(** C9 (amended): the rendering of a nomination depends on the record and on
    what the member lookup of the guild returns for the actor of the record,
    and on nothing else: two states that agree on that lookup render the
    record to the same result.  The rendering only appends log lines to the
    trace: it sends no request and no message and leaves the cache alone. *)
Theorem nomination_to_string_reads_record_and_actor nomination b1 b2 :
  (∀ actor_id, py_getitem_str nomination "actor" = Return actor_id →
               get_member (guild b1) actor_id = get_member (guild b2) actor_id) →
  fst (_nomination_to_string nomination b1) = fst (_nomination_to_string nomination b2)
  ∧ ∃ logs, snd (_nomination_to_string nomination b1) = extends b1 logs
            ∧ Forall is_log logs.
Proof.
  intros Hsame.
  destruct (nomination_to_string_run nomination b1) as (logs & Hlogs & Hsnd & Hfst).
  split.
  - symmetry. by apply Hfst.
  - by exists logs.
Qed.

(** C10: the rules command never ends with an index error.  When the store
    answers with a list of rules and some requested index is negative or not
    below the length of that list, the command sends the message that lists
    exactly those indices, in the order of the request, and does not
    paginate.  Otherwise every requested index is a position of the list,
    and the command paginates one line per index, made of the index and the
    rule at that position. *)
Theorem site_rules_checks_indices ctx rules b :
  let link_format := <["link_format" := "md"]> (∅ : gmap string string) in
  fst (site_rules ctx rules b) ≠ Raise IndexError
  ∧ ∀ items,
      rules ≠ [] →
      api_get (trace b) "rules" link_format = Reply (JList items) →
      match out_of_range (length items) rules with
      | (_ :: _) as invalid_indices =>
          site_rules ctx rules b
          = (Return tt,
             extends b [Call (ApiGet "rules" link_format);
                        Send (":x: Invalid rule indices "
                              +:+ join ", " (map str_int invalid_indices))])
      | [] =>
          ∃ final_rules,
            site_rules ctx rules b
            = (Return tt,
               extends b [Call (ApiGet "rules" link_format);
                          Paginate final_rules rules_embed])
            ∧ Forall2 (fun pick line =>
                         0 ≤ pick < Z.of_nat (length items)
                         ∧ ∃ rule, nth_error items (Z.to_nat pick) = Some rule
                                   ∧ line = "**" +:+ str_int pick +:+ ".** " +:+ py_str rule)
                      rules final_rules
      end.
Proof.
  intros link_format. split.
  - destruct rules as [|pick rest]; [discriminate |].
    unfold site_rules, bind. rewrite api_client_get_run. fold link_format.
    destruct (api_get _ _ _) as [full_rules|status|]; try discriminate.
    cbn [of_api_reply fst snd]. unfold lift.
    pose proof (pick_rules_checked full_rules (pick :: rest)) as Hchecked.
    pose proof (invalid_picks_raise full_rules (pick :: rest)) as Hraise.
    destruct (invalid_picks full_rules (pick :: rest)) as [[|bad others]|e].
    + specialize (Hchecked eq_refl).
      destruct (pick_rules full_rules (pick :: rest)); simpl; [discriminate | congruence].
    + discriminate.
    + rewrite (Hraise e eq_refl). discriminate.
  - intros items Hrules Hget.
    destruct rules as [|pick rest]; [congruence |].
    unfold site_rules, bind. rewrite api_client_get_run. fold link_format. rewrite Hget.
    cbn [of_api_reply fst snd]. unfold lift. rewrite invalid_picks_list.
    destruct (out_of_range (length items) (pick :: rest)) as [|bad others] eqn:Hinvalid.
    + destruct (pick_rules_list items (pick :: rest) Hinvalid) as (final_rules & -> & Hlines).
      exists final_rules. split; [| exact Hlines].
      unfold emit, extends. simpl. rewrite <- app_assoc. reflexivity.
    + unfold ctx_send, emit, extends. simpl. rewrite <- app_assoc. reflexivity.
Qed.

End Claims.

(** ** The theorems at concrete inputs *)

(** The refusal of a bot account, with an empty reason and a store that is
    down. *)
Lemma watch_refuses_bots_and_staff_witness :
  (acc_bot robot = true ∨ is_staff_member (C := demo_config) robot = true)
  ∧ watch_command (C := demo_config) (S := failing_store 503)
      demo_ctx robot EmptyString idle_bot
    = (Return tt, extends idle_bot [Send (msg_only_humans demo_ctx)]).
Proof.
  split; [left; reflexivity |].
  apply (watch_refuses_bots_and_staff (C := demo_config) (S := failing_store 503)
           demo_ctx robot EmptyString idle_bot).
  left; reflexivity.
Defined.

(** C1 as stated fails: an empty reason passes both policy checks, and the
    command refreshes the cache and creates the nomination. *)
Lemma watch_with_empty_reason_reaches_store :
  acc_bot human = false
  ∧ is_staff_member (C := demo_config) human = false
  ∧ watch_command (C := demo_config) (S := accepting_store) demo_ctx human EmptyString idle_bot
    = (Return tt,
       {| watched_users := <[7 := nomination_of_human]> ∅;
          guild := Some ∅;
          trace := [Call (ApiGet api_endpoint api_default_params);
                    Call (SessionPost "https://api.pythondiscord.com/bot/nominations"
                            (JObj [("actor", JNum 100); ("reason", JStr EmptyString);
                                   ("user", JNum 7)]));
                    Send (msg_watching human)] |}).
Proof. repeat split. Qed.

(** A refresh answered with status 503. *)
Lemma watch_aborts_when_refresh_fails_witness :
  acc_bot human = false
  ∧ is_staff_member (C := demo_config) human = false
  ∧ fst (fetch_user_cache (S := failing_store 503) watching_human) = Return false
  ∧ ∃ b', watch_command (C := demo_config) (S := failing_store 503)
            demo_ctx human "helpful" watching_human = (Return tt, b')
          ∧ trace b' = [Call (ApiGet api_endpoint api_default_params);
                        Send (msg_refresh_failed human)]
          ∧ watched_users b' = watched_users watching_human.
Proof.
  do 3 (split; [reflexivity |]).
  apply (watch_aborts_when_refresh_fails (C := demo_config) (S := failing_store 503)
           demo_ctx human "helpful" watching_human); reflexivity.
Defined.

(** C3 as stated fails: the second command refreshes the cache from the
    store, and when the store does not list the user any more the command
    creates a second nomination instead of reporting a conflict. *)
Lemma second_watch_creates_again :
  let first := watch_command (C := demo_config) (S := accepting_store)
                 demo_ctx human "helpful" idle_bot in
  let second := watch_command (C := demo_config) (S := accepting_store)
                  demo_ctx human "still helpful" (snd first) in
  fst first = Return tt
  ∧ watched_users (snd first) !! 7 = Some nomination_of_human
  ∧ fst second = Return tt
  ∧ trace (snd second)
    = [Call (ApiGet api_endpoint api_default_params);
       Call (SessionPost "https://api.pythondiscord.com/bot/nominations"
               (create_body demo_ctx human "helpful"));
       Send (msg_watching human);
       Call (ApiGet api_endpoint api_default_params);
       Call (SessionPost "https://api.pythondiscord.com/bot/nominations"
               (create_body demo_ctx human "still helpful"));
       Send (msg_watching human)].
Proof. repeat split. Qed.

(** Two watch commands in a row against a store that lists what was
    created. *)
Lemma watch_then_watch_again_witness :
  let first := watch_command (C := demo_config) (S := remembering_store)
                 demo_ctx human "helpful" idle_bot in
  first = (Return tt, snd first)
  ∧ last (trace (snd first)) = Some (Send (msg_watching human))
  ∧ watched_users (snd first) !! 7 = Some nomination_of_human
  ∧ ∃ b3, watch_command (C := demo_config) (S := remembering_store)
            demo_ctx human "still helpful" (snd first) = (Return tt, b3)
          ∧ trace b3 = trace (snd first)
                       ++ [Call (ApiGet api_endpoint api_default_params);
                           Send msg_already_watched]
          ∧ watched_users b3 = <[7 := nomination_of_human]> ∅.
Proof.
  intros first.
  assert (Hrun : first = (Return tt, snd first)) by reflexivity.
  assert (Hlast : last (trace (snd first)) = Some (Send (msg_watching human))) by reflexivity.
  do 2 (split; [assumption |]).
  destruct (watch_then_watch_again (C := demo_config) (S := remembering_store)
              demo_ctx human "helpful" idle_bot (snd first) Hrun Hlast)
    as [(br & status & data & _ & _ & _ & Hcached) Hagain].
  split; [reflexivity |].
  exact (Hagain demo_ctx "still helpful" (snd first)
           (ex_intro _ nomination_of_human eq_refl)).
Defined.

(** C4 as stated fails: the error status the store gives to the refresh of
    the cache is not raised; the command reports it and returns. *)
Lemma refresh_failure_is_soft :
  api_get (Store := failing_store 500) [] api_endpoint api_default_params = Rejected 500
  ∧ watch_command (C := demo_config) (S := failing_store 500) demo_ctx human "helpful" idle_bot
    = (Return tt,
       extends idle_bot [Call (ApiGet api_endpoint api_default_params);
                         Send (msg_refresh_failed human)]).
Proof. repeat split. Qed.

(** An edit of a nomination the store does not know. *)
Lemma store_failures_soft_or_raised_witness :
  api_get (Store := failing_store 404) (trace idle_bot) (nomination_path (str_int 31)) ∅
  = Rejected 404
  ∧ edit_reason_command (S := failing_store 404) demo_ctx 31 "kind" idle_bot
    = (Return tt,
       extends idle_bot [Call (ApiGet (nomination_path (str_int 31)) ∅);
                         Log "TRACE" "Nomination API 404: Can't nomination with id 31";
                         Send (msg_no_such_nomination 31)]).
Proof.
  split; [reflexivity |].
  destruct (store_failures_soft_or_raised (C := demo_config) (S := failing_store 404)
              demo_ctx human "kind" 31 idle_bot)
    as (_ & _ & Hedit & _).
  exact (Hedit 404 eq_refl).
Defined.

(** Ending the one active nomination of a watched user. *)
Lemma unwatch_evicts_only_after_update_witness :
  api_get (Store := listing_store) (trace watching_human) api_endpoint (active_of human)
  = Reply (JList [nomination_of_human])
  ∧ py_getitem_str nomination_of_human "id" = Return (JNum 31)
  ∧ ∃ b', unwatch_command (C := demo_config) (S := listing_store)
            demo_ctx human "moved on" watching_human = (Return tt, b')
          ∧ trace b' = [Call (ApiGet api_endpoint (active_of human));
                        Call (ApiPatch "bot/nominations/31" (end_body "moved on"));
                        Send (msg_unwatched human)]
          ∧ watched_users b' = delete 7 (watched_users watching_human).
Proof.
  do 2 (split; [reflexivity |]).
  exact (unwatch_evicts_only_after_update (C := demo_config) (S := listing_store)
           demo_ctx human "moved on" watching_human nomination_of_human (JNum 31)
           eq_refl eq_refl).
Defined.

(** Ending a nomination the store does not list. *)
Lemma unwatch_without_active_nomination_witness :
  api_get (Store := accepting_store) (trace watching_human) api_endpoint (active_of human)
  = Reply (JList [])
  ∧ unwatch_command (C := demo_config) (S := accepting_store)
      demo_ctx human "moved on" watching_human
    = (Return tt,
       extends watching_human [Call (ApiGet api_endpoint (active_of human));
                               Send msg_no_active]).
Proof.
  split; [reflexivity |].
  apply (unwatch_without_active_nomination (C := demo_config) (S := accepting_store)).
  reflexivity.
Defined.

(** A store that lists the user twice. *)
Lemma unwatch_rejects_several_matches_witness :
  api_get (Store := doubled_store) (trace watching_human) api_endpoint (active_of human)
  = Reply (JList [nomination_of_human; nomination_of_human])
  ∧ (1 < length [nomination_of_human; nomination_of_human])%nat
  ∧ unwatch_command (C := demo_config) (S := doubled_store)
      demo_ctx human "moved on" watching_human
    = (Raise ValueError,
       extends watching_human [Call (ApiGet api_endpoint (active_of human))]).
Proof.
  split; [reflexivity |]. split; [simpl; lia |].
  apply (unwatch_rejects_several_matches (C := demo_config) (S := doubled_store)
           demo_ctx human "moved on" watching_human
           [nomination_of_human; nomination_of_human]).
  - reflexivity.
  - simpl; lia.
Defined.

(** Editing an active nomination rewrites its reason; editing an ended one
    rewrites the reason of its end. *)
Lemma edit_updates_exactly_one_field_witness :
  (api_get (Store := record_store) (trace idle_bot) (nomination_path (str_int 31)) ∅
   = Reply nomination_of_human
   ∧ py_getitem_str nomination_of_human "active" = Return (JBool true)
   ∧ calls_during idle_bot
       (edit_reason_command (S := record_store) demo_ctx 31 "kind" idle_bot)
     = [ApiGet "bot/nominations/31" ∅;
        ApiPatch "bot/nominations/31" (JObj [("reason", JStr "kind")])])
  ∧ (api_get (Store := ended_record_store) (trace idle_bot) (nomination_path (str_int 12)) ∅
     = Reply ended_nomination
     ∧ py_getitem_str ended_nomination "active" = Return (JBool false)
     ∧ calls_during idle_bot
         (edit_reason_command (S := ended_record_store) demo_ctx 12 "moved away" idle_bot)
       = [ApiGet "bot/nominations/12" ∅;
          ApiPatch "bot/nominations/12" (JObj [("end_reason", JStr "moved away")])]).
Proof.
  split; (do 2 (split; [reflexivity |])).
  - exact (proj1 (edit_updates_exactly_one_field (S := record_store)
                    demo_ctx 31 "kind" idle_bot nomination_of_human eq_refl) eq_refl).
  - exact (proj2 (edit_updates_exactly_one_field (S := ended_record_store)
                    demo_ctx 12 "moved away" idle_bot ended_nomination eq_refl) eq_refl).
Defined.

(** C9 as stated fails: the same record is rendered differently in a guild
    where the actor is a member and in one where it is not, and each
    rendering writes two debug log lines. *)
Lemma rendering_depends_on_guild :
  _nomination_to_string (C := demo_config) nomination_of_human idle_bot
  = (Return (join NL ["===============";
                      "Status: **Active**";
                      "Date: 2019-09-14T20:10:00Z";
                      "Actor: 100";
                      "Reason: helpful";
                      "Nomination ID: `31`";
                      "==============="]),
     extends idle_bot [Log "DEBUG" "True"; Log "DEBUG" "<class 'str'>"])
  ∧ _nomination_to_string (C := demo_config) nomination_of_human guild_with_moderator
    = (Return (join NL ["===============";
                        "Status: **Active**";
                        "Date: 2019-09-14T20:10:00Z";
                        "Actor: <@100>";
                        "Reason: helpful";
                        "Nomination ID: `31`";
                        "==============="]),
       extends guild_with_moderator [Log "DEBUG" "True"; Log "DEBUG" "<class 'str'>"]).
Proof. split; reflexivity. Qed.

(** Two states with different caches and the same guild. *)
Lemma nomination_to_string_reads_record_and_actor_witness :
  (∀ actor_id, py_getitem_str nomination_of_human "actor" = Return actor_id →
               get_member (guild idle_bot) actor_id = get_member (guild watching_human) actor_id)
  ∧ fst (_nomination_to_string (C := demo_config) nomination_of_human idle_bot)
    = fst (_nomination_to_string (C := demo_config) nomination_of_human watching_human).
Proof.
  assert (Hsame : ∀ actor_id, py_getitem_str nomination_of_human "actor" = Return actor_id →
                    get_member (guild idle_bot) actor_id
                    = get_member (guild watching_human) actor_id)
    by (intros actor_id _; reflexivity).
  split; [exact Hsame |].
  exact (proj1 (nomination_to_string_reads_record_and_actor (C := demo_config)
                  nomination_of_human idle_bot watching_human Hsame)).
Defined.

(** Two rules fetched; indices 5 and -2 are out of range. *)
Lemma site_rules_checks_indices_witness :
  [1; 5; -2] ≠ []
  ∧ api_get (Store := rules_store) (trace idle_bot) "rules" (<["link_format" := "md"]> ∅)
    = Reply (JList [JStr "Be kind."; JStr "No spam."])
  ∧ site_rules (C := demo_config) (S := rules_store) demo_ctx [1; 5; -2] idle_bot
    = (Return tt,
       extends idle_bot [Call (ApiGet "rules" (<["link_format" := "md"]> ∅));
                         Send ":x: Invalid rule indices 5, -2"]).
Proof.
  split; [discriminate |]. split; [reflexivity |].
  exact (proj2 (site_rules_checks_indices (C := demo_config) (S := rules_store)
                  demo_ctx [1; 5; -2] idle_bot)
           [JStr "Be kind."; JStr "No spam."] ltac:(discriminate) eq_refl).
Defined.

(** *** A few runs *)

Example site_rules_selected :
  site_rules (C := demo_config) (S := rules_store) demo_ctx [1; 0] idle_bot
  = (Return tt,
     extends idle_bot [Call (ApiGet "rules" (<["link_format" := "md"]> ∅));
                       Paginate ["**1.** No spam."; "**0.** Be kind."]
                                (rules_embed (C := demo_config))]).
Proof. reflexivity. Qed.

Example second_watch_after_failed_refresh :
  let first := watch_command (C := demo_config) (S := flaky_store)
                 demo_ctx human "helpful" idle_bot in
  watch_command (C := demo_config) (S := flaky_store) demo_ctx human "still helpful" (snd first)
  = (Return tt,
     extends (snd first) [Call (ApiGet api_endpoint api_default_params);
                          Send (msg_refresh_failed human)]).
Proof. reflexivity. Qed.

Example unwatch_update_rejected :
  unwatch_command (C := demo_config)
    (S := fixed_store (Reply (JList [nomination_of_human])) (Rejected 500) NoResponse)
    demo_ctx human "moved on" watching_human
  = (Raise (ResponseCodeError 500),
     extends watching_human [Call (ApiGet api_endpoint (active_of human));
                             Call (ApiPatch "bot/nominations/31" (end_body "moved on"))]).
Proof. reflexivity. Qed.

Example edit_inactive_nomination :
  calls_during idle_bot
    (edit_reason_command
       (S := fixed_store (Reply (JObj [("id", JNum 31); ("active", JBool false)]))
               (Reply JNull) NoResponse)
       demo_ctx 31 "left the server" idle_bot)
  = [ApiGet "bot/nominations/31" ∅;
     ApiPatch "bot/nominations/31" (JObj [("end_reason", JStr "left the server")])].
Proof. reflexivity. Qed.

Example watch_unknown_user :
  watch_command (C := demo_config)
    (S := fixed_store (Reply (JList [])) Unreachable
            (Response 400 (Some (JObj [("user", JList [JStr "Invalid pk"])]))))
    demo_ctx human "helpful" idle_bot
  = (Return tt,
     extends idle_bot [Call (ApiGet api_endpoint api_default_params);
                       Call (SessionPost "https://api.pythondiscord.com/bot/nominations"
                               (create_body demo_ctx human "helpful"));
                       Send msg_unknown_user]).
Proof. reflexivity. Qed.

Example dedent_keeps_relative_indentation :
  strip (dedent (NL +:+ "    a" +:+ NL +:+ "      b" +:+ NL +:+ "  " +:+ NL +:+ "    c" +:+ NL +:+ "    "))
  = "a" +:+ NL +:+ "  b" +:+ NL +:+ NL +:+ "c".
Proof. reflexivity. Qed.

(** ** Line structure, dedent and strip *)

Lemma no_newline_app s t : no_newline (s +:+ t) = no_newline s && no_newline t.
Proof. induction s as [|c s IH]; simpl; [reflexivity |]. by rewrite IH, andb_assoc. Qed.

Lemma split_lines_one s : no_newline s = true → split_lines s = [s].
Proof.
  induction s as [|c s IH]; simpl; [reflexivity |].
  intros [Hc Hs]%andb_true_iff. apply negb_true_iff in Hc. rewrite Hc, (IH Hs). reflexivity.
Qed.

Lemma split_lines_cons_line s t :
  no_newline s = true →
  split_lines (s +:+ String LF t) = s :: split_lines t.
Proof.
  induction s as [|c s IH]; simpl; [reflexivity |].
  intros [Hc Hs]%andb_true_iff. apply negb_true_iff in Hc. rewrite Hc, (IH Hs). reflexivity.
Qed.

Lemma rstrip_app_solid s t : rstrip t ≠ EmptyString → rstrip (s +:+ t) = s +:+ rstrip t.
Proof.
  intros Ht. induction s as [|c s IH]; simpl; [reflexivity |].
  rewrite IH. destruct (s +:+ rstrip t) eqn:Hst; [| by rewrite <- Hst].
  destruct s; simpl in Hst; [contradiction | discriminate].
Qed.

Lemma rstrip_app_solid_ne s t : rstrip t ≠ EmptyString → rstrip (s +:+ t) ≠ EmptyString.
Proof.
  intros Ht. rewrite rstrip_app_solid by exact Ht.
  destruct s; simpl; [exact Ht | discriminate].
Qed.

Lemma append_cons c (s t : string) : String c s +:+ t = String c (s +:+ t).
Proof. reflexivity. Qed.

Lemma append_nil (t : string) : EmptyString +:+ t = t.
Proof. reflexivity. Qed.

Lemma string_append_assoc (s t u : string) : (s +:+ t) +:+ u = s +:+ (t +:+ u).
Proof. induction s as [|c s IH]; [reflexivity |]. rewrite !append_cons. by f_equal. Qed.

Lemma join_cons_cons sep p q rest : join sep (p :: q :: rest) = p +:+ sep +:+ join sep (q :: rest).
Proof. reflexivity. Qed.

Lemma split_lines_join lines :
  lines ≠ [] →
  forallb no_newline lines = true →
  split_lines (join NL lines) = lines.
Proof.
  induction lines as [|p [|q rest] IH]; intros Hne Hall; [congruence | |].
  - simpl in *. apply split_lines_one. by destruct (no_newline p).
  - rewrite join_cons_cons. cbn [forallb] in Hall. apply andb_true_iff in Hall as [Hp Hrest].
    unfold NL at 1. rewrite append_cons, append_nil.
    rewrite split_lines_cons_line by exact Hp. f_equal. by apply IH.
Qed.

Lemma rstrip_app_blank s t : rstrip t = EmptyString → rstrip (s +:+ t) = rstrip s.
Proof.
  intros Ht. induction s as [|c s IH]; [exact Ht |].
  rewrite append_cons. cbn [rstrip]. by rewrite IH.
Qed.

Lemma join_NL_nonempty pre last : last ≠ EmptyString → join NL (pre ++ [last]) ≠ EmptyString.
Proof.
  intros Hlast. destruct pre as [|p pre]; [exact Hlast |].
  change ((p :: pre) ++ [last]) with (p :: (pre ++ [last])).
  destruct (pre ++ [last]) as [|q rest] eqn:Hpre; [by destruct pre |].
  rewrite join_cons_cons. destruct p; discriminate.
Qed.

(** Trailing blank line and all, the last solid line ends the stripped text. *)
Lemma rstrip_join_tail pre last :
  rstrip last = last → last ≠ EmptyString →
  rstrip (join NL (pre ++ [last; EmptyString])) = join NL (pre ++ [last]).
Proof.
  intros Hsolid Hlast. induction pre as [|p pre IH].
  - cbn [app]. rewrite join_cons_cons. cbn [join].
    rewrite rstrip_app_blank by reflexivity. exact Hsolid.
  - change ((p :: pre) ++ [last; EmptyString]) with (p :: (pre ++ [last; EmptyString])).
    change ((p :: pre) ++ [last]) with (p :: (pre ++ [last])).
    assert (Hne : join NL (pre ++ [last]) ≠ EmptyString) by by apply join_NL_nonempty.
    destruct (pre ++ [last; EmptyString]) as [|q rest] eqn:Hpre; [by destruct pre |].
    destruct (pre ++ [last]) as [|q' rest'] eqn:Hpre'; [by destruct pre |].
    rewrite !join_cons_cons.
    rewrite !rstrip_app_solid; rewrite ?IH; try exact Hne.
    + reflexivity.
    + by apply rstrip_app_solid_ne; rewrite IH.
Qed.

Lemma strip_framed c first middle last :
  is_space c = false →
  rstrip last = last → last ≠ EmptyString →
  strip (join NL (EmptyString :: String c first :: middle ++ [last; EmptyString]))
  = join NL (String c first :: middle ++ [last]).
Proof.
  intros Hc Hsolid Hlast. unfold strip.
  rewrite join_cons_cons. unfold NL at 1. rewrite append_nil, append_cons, append_nil.
  cbn [lstrip].
  replace (is_space LF) with true by reflexivity.
  assert (Hl : ∀ rest, lstrip (join NL (String c first :: rest))
                       = join NL (String c first :: rest)).
  { intros [|q rest]; [simpl; by rewrite Hc |].
    rewrite join_cons_cons, append_cons. cbn [lstrip]. by rewrite Hc. }
  rewrite Hl. apply (rstrip_join_tail (String c first :: middle)); assumption.
Qed.

Lemma dedent_join lines :
  lines ≠ [] →
  forallb no_newline lines = true →
  dedent (join NL lines)
  = let blanked := map (fun l => if whitespace_only l then EmptyString else l) lines in
    match dedent_margin blanked with
    | None | Some EmptyString => join NL blanked
    | Some margin =>
        join NL (map (fun l => match remove_prefix margin l with Some l' => l' | None => l end)
                   blanked)
    end.
Proof. intros Hne Hall. unfold dedent. by rewrite split_lines_join. Qed.

Lemma active_template_summary d a r i :
  no_newline d = true → no_newline a = true → no_newline r = true → no_newline i = true →
  strip (dedent (active_template d a r i))
  = join NL ["===============";
             "Status: **Active**";
             "Date: " +:+ d;
             "Actor: " +:+ a;
             "Reason: " +:+ r;
             "Nomination ID: `" +:+ i +:+ "`";
             "==============="].
Proof.
  intros Hd Ha Hr Hi.
  assert (Hlines : active_template d a r i
                   = join NL [EmptyString;
                              margin16 +:+ "===============";
                              margin16 +:+ "Status: **Active**";
                              margin16 +:+ "Date: " +:+ d;
                              margin16 +:+ "Actor: " +:+ a;
                              margin16 +:+ "Reason: " +:+ r;
                              margin16 +:+ "Nomination ID: `" +:+ i +:+ "`";
                              margin16 +:+ "===============";
                              margin16]).
  { unfold active_template. rewrite !join_cons_cons. cbn [join].
    rewrite !string_append_assoc. reflexivity. }
  rewrite Hlines, dedent_join.
  - exact (strip_framed "=" "=============="
             ["Status: **Active**"; "Date: " +:+ d; "Actor: " +:+ a; "Reason: " +:+ r;
              "Nomination ID: `" +:+ i +:+ "`"]
             "===============" eq_refl eq_refl ltac:(discriminate)).
  - discriminate.
  - cbn [forallb]. rewrite !no_newline_app, Hd, Ha, Hr, Hi. reflexivity.
Qed.

Lemma inactive_template_summary d a r e u i :
  no_newline d = true → no_newline a = true → no_newline r = true →
  no_newline e = true → no_newline u = true → no_newline i = true →
  strip (dedent (inactive_template d a r e u i))
  = join NL ["===============";
             "Status: Inactive";
             "Date: " +:+ d;
             "Actor: " +:+ a;
             "Reason: " +:+ r;
             EmptyString;
             "End date: " +:+ e;
             "Unwatch reason: " +:+ u;
             "Nomination ID: `" +:+ i +:+ "`";
             "==============="].
Proof.
  intros Hd Ha Hr He Hu Hi.
  assert (Hlines : inactive_template d a r e u i
                   = join NL [EmptyString;
                              margin16 +:+ "===============";
                              margin16 +:+ "Status: Inactive";
                              margin16 +:+ "Date: " +:+ d;
                              margin16 +:+ "Actor: " +:+ a;
                              margin16 +:+ "Reason: " +:+ r;
                              EmptyString;
                              margin16 +:+ "End date: " +:+ e;
                              margin16 +:+ "Unwatch reason: " +:+ u;
                              margin16 +:+ "Nomination ID: `" +:+ i +:+ "`";
                              margin16 +:+ "===============";
                              margin16]).
  { unfold inactive_template. rewrite !join_cons_cons. cbn [join].
    rewrite !string_append_assoc. reflexivity. }
  rewrite Hlines, dedent_join.
  - exact (strip_framed "=" "=============="
             ["Status: Inactive"; "Date: " +:+ d; "Actor: " +:+ a; "Reason: " +:+ r;
              EmptyString; "End date: " +:+ e; "Unwatch reason: " +:+ u;
              "Nomination ID: `" +:+ i +:+ "`"]
             "===============" eq_refl eq_refl ltac:(discriminate)).
  - discriminate.
  - cbn [forallb]. rewrite !no_newline_app, Hd, Ha, Hr, He, Hu, Hi. reflexivity.
Qed.

Lemma common_prefix_empty_r m : common_prefix m EmptyString = EmptyString.
Proof. by destruct m. Qed.

Lemma dedent_margin_fold_flush indents margin :
  fold_left (fun margin indent =>
               match margin with
               | None => Some indent
               | Some m => Some (common_prefix m indent)
               end) indents (Some EmptyString)
  = Some EmptyString
  ∧ (In EmptyString indents →
     fold_left (fun margin indent =>
                  match margin with
                  | None => Some indent
                  | Some m => Some (common_prefix m indent)
                  end) indents margin
     = Some EmptyString).
Proof.
  revert margin. induction indents as [|indent rest IH]; intros margin.
  { split; [reflexivity | intros []]. }
  split.
  - cbn [fold_left common_prefix]. apply (IH None).
  - intros [-> | Hin]; cbn [fold_left].
    + destruct margin as [m|]; rewrite ?common_prefix_empty_r; apply (IH None).
    + by apply IH.
Qed.

(** A line that starts in the first column leaves nothing to cut. *)
Lemma dedent_margin_flush lines l :
  In l lines → whitespace_only l = false → leading_whitespace l = EmptyString →
  dedent_margin lines = Some EmptyString.
Proof.
  intros Hin Hsolid Hflush. unfold dedent_margin.
  apply dedent_margin_fold_flush. rewrite <- Hflush. apply in_map.
  apply filter_In. split; [exact Hin | by rewrite Hsolid].
Qed.

Lemma active_template_flush_reason d a r1 c r2 i :
  no_newline d = true → no_newline a = true → no_newline i = true →
  no_newline r1 = true → no_newline (String c r2) = true →
  is_indent_char c = false →
  strip (dedent (active_template d a (r1 +:+ NL +:+ String c r2) i))
  = join NL ["===============";
             margin16 +:+ "Status: **Active**";
             margin16 +:+ "Date: " +:+ d;
             margin16 +:+ "Actor: " +:+ a;
             margin16 +:+ "Reason: " +:+ r1;
             String c r2;
             margin16 +:+ "Nomination ID: `" +:+ i +:+ "`";
             margin16 +:+ "==============="].
Proof.
  intros Hd Ha Hi Hr1 Hr2 Hc.
  assert (Hsolid : whitespace_only (String c r2) = false) by (simpl; by rewrite Hc).
  assert (Hflush : leading_whitespace (String c r2) = EmptyString) by (simpl; by rewrite Hc).
  revert Hr2 Hsolid Hflush. generalize (String c r2). intros line Hline Hsolid Hflush.
  set (lines := [EmptyString;
                 margin16 +:+ "===============";
                 margin16 +:+ "Status: **Active**";
                 margin16 +:+ "Date: " +:+ d;
                 margin16 +:+ "Actor: " +:+ a;
                 margin16 +:+ "Reason: " +:+ r1;
                 line;
                 margin16 +:+ "Nomination ID: `" +:+ i +:+ "`";
                 margin16 +:+ "===============";
                 margin16]).
  assert (Hlines : active_template d a (r1 +:+ NL +:+ line) i = join NL lines).
  { unfold active_template, lines. rewrite !join_cons_cons. cbn [join].
    rewrite !string_append_assoc. reflexivity. }
  assert (Hblanked : map (fun l => if whitespace_only l then EmptyString else l) lines
                     = [EmptyString;
                        margin16 +:+ "===============";
                        margin16 +:+ "Status: **Active**";
                        margin16 +:+ "Date: " +:+ d;
                        margin16 +:+ "Actor: " +:+ a;
                        margin16 +:+ "Reason: " +:+ r1;
                        line;
                        margin16 +:+ "Nomination ID: `" +:+ i +:+ "`";
                        margin16 +:+ "===============";
                        EmptyString]).
  { unfold lines. cbn [map]. rewrite Hsolid. reflexivity. }
  rewrite Hlines, dedent_join.
  - cbv zeta. rewrite Hblanked.
    rewrite (dedent_margin_flush _ line); [| | exact Hsolid | exact Hflush].
    2: { do 6 right. by left. }
    unfold strip.
    replace (lstrip _) with
      (join NL (["===============";
                 margin16 +:+ "Status: **Active**";
                 margin16 +:+ "Date: " +:+ d;
                 margin16 +:+ "Actor: " +:+ a;
                 margin16 +:+ "Reason: " +:+ r1;
                 line;
                 margin16 +:+ "Nomination ID: `" +:+ i +:+ "`"]
                ++ [margin16 +:+ "==============="; EmptyString])) by reflexivity.
    rewrite rstrip_join_tail; [reflexivity | reflexivity | discriminate].
  - discriminate.
  - unfold lines. cbn [forallb]. rewrite !no_newline_app, Hd, Ha, Hi, Hr1, Hline. reflexivity.
Qed.

Section Rendering.
Context {C : Config}.

Lemma nomination_to_string_active nomination b actor_id actor active inserted_at start_date
    reason nomination_id :
  py_getitem_str nomination "actor" = Return actor_id →
  get_member (guild b) actor_id = Return actor →
  py_getitem_str nomination "active" = Return active →
  truthy active = true →
  py_getitem_str nomination "inserted_at" = Return inserted_at →
  format_infraction inserted_at = Return start_date →
  py_getitem_str nomination "reason" = Return reason →
  py_getitem_str nomination "id" = Return nomination_id →
  _nomination_to_string nomination b
  = (Return (strip (dedent (active_template start_date (actor_text actor actor_id)
                              (py_str reason) (py_str nomination_id)))),
     extends b [Log "DEBUG" (py_str active);
                Log "DEBUG" ("<class '" +:+ py_type_name inserted_at +:+ "'>")]).
Proof.
  intros Hactor Hmember Hactive Htruthy Hinserted Hstart Hreason Hid.
  unfold _nomination_to_string. exec.
  rewrite Hactor. simpl. rewrite Hmember. simpl. rewrite Hactive. simpl.
  rewrite Hinserted. simpl. rewrite Hstart. simpl. rewrite Htruthy. simpl.
  rewrite Hreason. simpl. rewrite Hid. simpl. by rewrite <- app_assoc.
Qed.

Lemma nomination_to_string_inactive nomination b actor_id actor active inserted_at start_date
    ended_at end_date reason end_reason nomination_id :
  py_getitem_str nomination "actor" = Return actor_id →
  get_member (guild b) actor_id = Return actor →
  py_getitem_str nomination "active" = Return active →
  truthy active = false →
  py_getitem_str nomination "inserted_at" = Return inserted_at →
  format_infraction inserted_at = Return start_date →
  py_getitem_str nomination "ended_at" = Return ended_at →
  format_infraction ended_at = Return end_date →
  py_getitem_str nomination "reason" = Return reason →
  py_getitem_str nomination "end_reason" = Return end_reason →
  py_getitem_str nomination "id" = Return nomination_id →
  _nomination_to_string nomination b
  = (Return (strip (dedent (inactive_template start_date (actor_text actor actor_id)
                              (py_str reason) end_date (py_str end_reason)
                              (py_str nomination_id)))),
     extends b [Log "DEBUG" (py_str active);
                Log "DEBUG" ("<class '" +:+ py_type_name inserted_at +:+ "'>")]).
Proof.
  intros Hactor Hmember Hactive Htruthy Hinserted Hstart Hended Hend Hreason Hendr Hid.
  unfold _nomination_to_string. exec.
  rewrite Hactor. simpl. rewrite Hmember. simpl. rewrite Hactive. simpl.
  rewrite Hinserted. simpl. rewrite Hstart. simpl. rewrite Htruthy. simpl.
  rewrite Hended. simpl. rewrite Hend. simpl.
  rewrite Hreason. simpl. rewrite Hendr. simpl. rewrite Hid. simpl. by rewrite <- app_assoc.
Qed.

End Rendering.

(** ** Further runs: history and rules *)

Section MoreRuns.
Context {C : Config} {S : Store}.

Lemma history_command_run ctx user b :
  let b1 := extends b [Call (ApiGet api_endpoint (history_of user))] in
  history_command ctx user b
  = match api_get (trace b) api_endpoint (history_of user) with
    | Rejected status => (Raise (ResponseCodeError status), b1)
    | Unreachable => (Raise ClientConnectionError, b1)
    | Reply history =>
        if truthy history then
          match py_iter history with
          | Raise e => (Raise e, b1)
          | Return nominations =>
              match for_each _nomination_to_string nominations b1 with
              | (Return lines, b2) => (Return tt, extends b2 [Paginate lines (history_embed user)])
              | (Raise e, b2) => (Raise e, b2)
              end
          end
        else (Return tt, extends b1 [Send msg_never_nominated])
    end.
Proof.
  intros b1. unfold history_command, bind at 1. rewrite api_client_get_run.
  fold (history_of user). fold b1.
  destruct (api_get _ _ _) as [history|status|]; cbn [of_api_reply]; try reflexivity.
  destruct (truthy history); cbn [negb]; [| reflexivity].
  unfold bind at 1, lift at 1. destruct (py_iter history) as [nominations|e]; [| reflexivity].
  unfold bind at 1.
  destruct (for_each _nomination_to_string nominations b1) as [[lines|e] b2]; reflexivity.
Qed.

Lemma for_each_cons {A B} (f : A → M B) x rest b :
  for_each f (x :: rest) b
  = match f x b with
    | (Return y, b1) =>
        match for_each f rest b1 with
        | (Return ys, b2) => (Return (y :: ys), b2)
        | (Raise e, b2) => (Raise e, b2)
        end
    | (Raise e, b1) => (Raise e, b1)
    end.
Proof.
  cbn [for_each]. unfold bind, ret.
  destruct (f x b) as [[y|e] b1]; [| reflexivity].
  destruct (for_each f rest b1) as [[ys|e] b2]; reflexivity.
Qed.

(** Rendering a list: every record that renders in [b] gives its line, in
    order, and the first one that fails ends the loop with its exception. *)
Lemma for_each_nomination_to_string_run nominations b b1 :
  guild b1 = guild b →
  ∃ logs,
    Forall is_log logs
    ∧ snd (for_each _nomination_to_string nominations b1) = extends b1 logs
    ∧ match fst (for_each _nomination_to_string nominations b1) with
      | Return lines =>
          Forall2 (fun nomination line =>
                     fst (_nomination_to_string nomination b) = Return line)
                  nominations lines
      | Raise e =>
          ∃ good bad rest,
            nominations = good ++ bad :: rest
            ∧ Forall (fun nomination => returned (_nomination_to_string nomination b) = true)
                     good
            ∧ fst (_nomination_to_string bad b) = Raise e
      end.
Proof.
  revert b1. induction nominations as [|nomination rest IH]; intros b1 Hguild.
  { exists []. split; [constructor |]. split; [| simpl; constructor].
    destruct b1; unfold extends; simpl. by rewrite app_nil_r. }
  destruct (nomination_to_string_run nomination b1) as (logs1 & Hlogs1 & Hsnd1 & Hfst1).
  assert (Hsame : fst (_nomination_to_string nomination b)
                  = fst (_nomination_to_string nomination b1)).
  { apply Hfst1. intros actor_id _. by rewrite Hguild. }
  rewrite for_each_cons.
  destruct (_nomination_to_string nomination b1) as [[line|e] b2]; simpl in Hsnd1, Hsame;
    subst b2.
  2: { exists logs1. split; [exact Hlogs1 |]. split; [reflexivity |]. simpl.
       exists [], nomination, rest. split; [reflexivity |]. split; [constructor | exact Hsame]. }
  destruct (IH (extends b1 logs1) Hguild) as (logs2 & Hlogs2 & Hsnd2 & Hfst2).
  destruct (for_each _nomination_to_string rest (extends b1 logs1)) as [[lines|e] b3];
    simpl in Hsnd2, Hfst2; subst b3; exists (logs1 ++ logs2);
    (split; [by apply Forall_app |]); (split; [by rewrite extends_app |]).
  - simpl. constructor; assumption.
  - simpl. destruct Hfst2 as (good & bad & rest' & -> & Hgood & Hbad).
    exists (nomination :: good), bad, rest'. split; [reflexivity |].
    split; [| exact Hbad]. constructor; [| exact Hgood].
    unfold returned. by rewrite Hsame.
Qed.

Lemma site_rules_run ctx rules b :
  let link_format := <["link_format" := "md"]> (∅ : gmap string string) in
  let b1 := extends b [Call (ApiGet "rules" link_format)] in
  rules ≠ [] →
  site_rules ctx rules b
  = match api_get (trace b) "rules" link_format with
    | Rejected status => (Raise (ResponseCodeError status), b1)
    | Unreachable => (Raise ClientConnectionError, b1)
    | Reply full_rules =>
        match invalid_picks full_rules rules with
        | Raise e => (Raise e, b1)
        | Return ((_ :: _) as invalid_indices) =>
            (Return tt,
             extends b1 [Send (":x: Invalid rule indices "
                               +:+ join ", " (map str_int invalid_indices))])
        | Return [] =>
            match pick_rules full_rules rules with
            | Raise e => (Raise e, b1)
            | Return final_rules => (Return tt, extends b1 [Paginate final_rules rules_embed])
            end
        end
    end.
Proof.
  intros link_format b1 Hrules. destruct rules as [|pick rest]; [congruence |].
  unfold site_rules, bind at 1. rewrite api_client_get_run. fold link_format. fold b1.
  destruct (api_get _ _ _) as [full_rules|status|]; cbn [of_api_reply]; try reflexivity.
  unfold bind at 1, lift at 1.
  destruct (invalid_picks full_rules (pick :: rest)) as [[|bad others]|e]; try reflexivity.
Qed.

Lemma site_rules_without_indices ctx b :
  site_rules ctx [] b = (Return tt, extends b [SendEmbed default_rules_embed]).
Proof. reflexivity. Qed.

End MoreRuns.

(** ** Further properties of the rendering *)

Section RenderingProperties.
Context {C : Config}.

(** X1: an active nomination whose date, actor, reason and id are single-line
    texts is rendered as seven lines without indentation: a rule, the status,
    the date, the actor (by mention if the guild knows the actor as a member,
    by the raw id otherwise), the reason, the id in backticks, and a rule.
    The entries [ended_at] and [end_reason] are not read. *)
Theorem active_nomination_summary nomination b actor_id actor active inserted_at start_date
    reason nomination_id :
  py_getitem_str nomination "actor" = Return actor_id →
  get_member (guild b) actor_id = Return actor →
  py_getitem_str nomination "active" = Return active →
  truthy active = true →
  py_getitem_str nomination "inserted_at" = Return inserted_at →
  format_infraction inserted_at = Return start_date →
  py_getitem_str nomination "reason" = Return reason →
  py_getitem_str nomination "id" = Return nomination_id →
  no_newline start_date = true →
  no_newline (actor_text actor actor_id) = true →
  no_newline (py_str reason) = true →
  no_newline (py_str nomination_id) = true →
  fst (_nomination_to_string nomination b)
  = Return (join NL ["===============";
                     "Status: **Active**";
                     "Date: " +:+ start_date;
                     "Actor: " +:+ actor_text actor actor_id;
                     "Reason: " +:+ py_str reason;
                     "Nomination ID: `" +:+ py_str nomination_id +:+ "`";
                     "==============="]).
Proof.
  intros Hactor Hmember Hactive Htruthy Hinserted Hstart Hreason Hid Hd Ha Hr Hi.
  rewrite (nomination_to_string_active _ _ _ _ _ _ _ _ _
             Hactor Hmember Hactive Htruthy Hinserted Hstart Hreason Hid).
  cbn [fst]. f_equal. by apply active_template_summary.
Qed.

(** X2: an inactive nomination whose interpolated texts are single-line is
    rendered as ten lines without indentation; an empty line separates the
    reason from the end date, the unwatch reason and the id. *)
Theorem inactive_nomination_summary nomination b actor_id actor active inserted_at start_date
    ended_at end_date reason end_reason nomination_id :
  py_getitem_str nomination "actor" = Return actor_id →
  get_member (guild b) actor_id = Return actor →
  py_getitem_str nomination "active" = Return active →
  truthy active = false →
  py_getitem_str nomination "inserted_at" = Return inserted_at →
  format_infraction inserted_at = Return start_date →
  py_getitem_str nomination "ended_at" = Return ended_at →
  format_infraction ended_at = Return end_date →
  py_getitem_str nomination "reason" = Return reason →
  py_getitem_str nomination "end_reason" = Return end_reason →
  py_getitem_str nomination "id" = Return nomination_id →
  no_newline start_date = true →
  no_newline (actor_text actor actor_id) = true →
  no_newline (py_str reason) = true →
  no_newline end_date = true →
  no_newline (py_str end_reason) = true →
  no_newline (py_str nomination_id) = true →
  fst (_nomination_to_string nomination b)
  = Return (join NL ["===============";
                     "Status: Inactive";
                     "Date: " +:+ start_date;
                     "Actor: " +:+ actor_text actor actor_id;
                     "Reason: " +:+ py_str reason;
                     EmptyString;
                     "End date: " +:+ end_date;
                     "Unwatch reason: " +:+ py_str end_reason;
                     "Nomination ID: `" +:+ py_str nomination_id +:+ "`";
                     "==============="]).
Proof.
  intros Hactor Hmember Hactive Htruthy Hinserted Hstart Hended Hend Hreason Hendr Hid
    Hd Ha Hr He Hu Hi.
  rewrite (nomination_to_string_inactive _ _ _ _ _ _ _ _ _ _ _ _
             Hactor Hmember Hactive Htruthy Hinserted Hstart Hended Hend Hreason Hendr Hid).
  cbn [fst]. f_equal. by apply inactive_template_summary.
Qed.

(** X3: a reason of two lines whose second line starts in the first column
    (with a character that is neither a blank nor a tab) defeats the removal
    of the margin: every line of the summary but the first keeps the sixteen
    blanks of the source text in front of it. *)
Theorem flush_reason_line_keeps_margin nomination b actor_id actor active inserted_at start_date
    first_line c second_line nomination_id :
  py_getitem_str nomination "actor" = Return actor_id →
  get_member (guild b) actor_id = Return actor →
  py_getitem_str nomination "active" = Return active →
  truthy active = true →
  py_getitem_str nomination "inserted_at" = Return inserted_at →
  format_infraction inserted_at = Return start_date →
  py_getitem_str nomination "reason" = Return (JStr (first_line +:+ NL +:+ String c second_line)) →
  py_getitem_str nomination "id" = Return nomination_id →
  no_newline start_date = true →
  no_newline (actor_text actor actor_id) = true →
  no_newline (py_str nomination_id) = true →
  no_newline first_line = true →
  no_newline (String c second_line) = true →
  is_indent_char c = false →
  fst (_nomination_to_string nomination b)
  = Return (join NL ["===============";
                     margin16 +:+ "Status: **Active**";
                     margin16 +:+ "Date: " +:+ start_date;
                     margin16 +:+ "Actor: " +:+ actor_text actor actor_id;
                     margin16 +:+ "Reason: " +:+ first_line;
                     String c second_line;
                     margin16 +:+ "Nomination ID: `" +:+ py_str nomination_id +:+ "`";
                     margin16 +:+ "==============="]).
Proof.
  intros Hactor Hmember Hactive Htruthy Hinserted Hstart Hreason Hid Hd Ha Hi Hr1 Hr2 Hc.
  rewrite (nomination_to_string_active _ _ _ _ _ _ _ _ _
             Hactor Hmember Hactive Htruthy Hinserted Hstart Hreason Hid).
  cbn [fst py_str]. f_equal. by apply active_template_flush_reason.
Qed.

(** X4: the rendering returns a text exactly when the guild is available, the
    record has the entries [actor] (a value the member lookup accepts),
    [active], [inserted_at] (a date that can be formatted), [reason] and [id],
    and, if [active] is false, also [ended_at] (a date that can be formatted)
    and [end_reason]. *)
Theorem nomination_to_string_returns_iff nomination b :
  returned (_nomination_to_string nomination b) = true
  ↔ ∃ actor_id actor active inserted_at start_date reason nomination_id,
      py_getitem_str nomination "actor" = Return actor_id
      ∧ get_member (guild b) actor_id = Return actor
      ∧ py_getitem_str nomination "active" = Return active
      ∧ py_getitem_str nomination "inserted_at" = Return inserted_at
      ∧ format_infraction inserted_at = Return start_date
      ∧ py_getitem_str nomination "reason" = Return reason
      ∧ py_getitem_str nomination "id" = Return nomination_id
      ∧ (truthy active = false →
         ∃ ended_at end_date end_reason,
           py_getitem_str nomination "ended_at" = Return ended_at
           ∧ format_infraction ended_at = Return end_date
           ∧ py_getitem_str nomination "end_reason" = Return end_reason).
Proof.
  split.
  - unfold returned, _nomination_to_string. exec.
    destruct (py_getitem_str nomination "actor") as [actor_id|] eqn:Hactor; simpl;
      [| discriminate].
    destruct (get_member (guild b) actor_id) as [actor|] eqn:Hmember; simpl; [| discriminate].
    destruct (py_getitem_str nomination "active") as [active|] eqn:Hactive; simpl;
      [| discriminate].
    destruct (py_getitem_str nomination "inserted_at") as [inserted_at|] eqn:Hinserted; simpl;
      [| discriminate].
    destruct (format_infraction inserted_at) as [start_date|] eqn:Hstart; simpl;
      [| discriminate].
    destruct (truthy active) eqn:Htruthy; simpl.
    + destruct (py_getitem_str nomination "reason") as [reason|] eqn:Hreason; simpl;
        [| discriminate].
      destruct (py_getitem_str nomination "id") as [nomination_id|] eqn:Hid; simpl;
        [| discriminate].
      intros _. exists actor_id, actor, active, inserted_at, start_date, reason, nomination_id.
      rewrite Htruthy. repeat split; try done.
    + destruct (py_getitem_str nomination "ended_at") as [ended_at|] eqn:Hended; simpl;
        [| discriminate].
      destruct (format_infraction ended_at) as [end_date|] eqn:Hend; simpl; [| discriminate].
      destruct (py_getitem_str nomination "reason") as [reason|] eqn:Hreason; simpl;
        [| discriminate].
      destruct (py_getitem_str nomination "end_reason") as [end_reason|] eqn:Hendr; simpl;
        [| discriminate].
      destruct (py_getitem_str nomination "id") as [nomination_id|] eqn:Hid; simpl;
        [| discriminate].
      intros _. exists actor_id, actor, active, inserted_at, start_date, reason, nomination_id.
      repeat split; try done. intros _. by exists ended_at, end_date, end_reason.
  - intros (actor_id & actor & active & inserted_at & start_date & reason & nomination_id
            & Hactor & Hmember & Hactive & Hinserted & Hstart & Hreason & Hid & Hinactive).
    unfold returned. destruct (truthy active) eqn:Htruthy.
    + by rewrite (nomination_to_string_active _ _ _ _ _ _ _ _ _
                    Hactor Hmember Hactive Htruthy Hinserted Hstart Hreason Hid).
    + destruct (Hinactive eq_refl) as (ended_at & end_date & end_reason & Hended & Hend & Hendr).
      by rewrite (nomination_to_string_inactive _ _ _ _ _ _ _ _ _ _ _ _
                    Hactor Hmember Hactive Htruthy Hinserted Hstart Hended Hend
                    Hreason Hendr Hid).
Qed.

End RenderingProperties.

(** ** Further properties of the commands *)

Section CommandProperties.
Context {C : Config} {S : Store}.

Lemma replies_app evs evs' : replies (evs ++ evs') = replies evs ++ replies evs'.
Proof. induction evs as [|[] evs IH]; simpl; rewrite ?IH; reflexivity. Qed.

Lemma replies_logs logs : Forall is_log logs → replies logs = [].
Proof.
  induction 1 as [|e logs He _ IH]; [reflexivity |].
  destruct e; simpl in *; try contradiction. exact IH.
Qed.

Lemma first_failure_unique {A} (P : A → Prop) good bad rest good' bad' rest' :
  good ++ bad :: rest = good' ++ bad' :: rest' →
  Forall P good → ¬ P bad → Forall P good' → ¬ P bad' →
  bad = bad'.
Proof.
  revert good'. induction good as [|g good IH]; intros good' Hsplit Hgood Hbad Hgood' Hbad'.
  - destruct good' as [|g' good']; simpl in Hsplit.
    + by injection Hsplit.
    + injection Hsplit as -> _. inversion Hgood'; subst. contradiction.
  - inversion Hgood; subst. destruct good' as [|g' good']; simpl in Hsplit.
    + injection Hsplit as -> _. contradiction.
    + injection Hsplit as _ Hsplit. inversion Hgood'; subst. by apply (IH good').
Qed.

(** X5: when the store answers the history query with nothing (an empty
    list, or any other value Python takes for false), the command tells that
    the user has never been nominated; it renders and paginates nothing. *)
Theorem history_of_unknown_user ctx user b history :
  api_get (trace b) api_endpoint (history_of user) = Reply history →
  truthy history = false →
  history_command ctx user b
  = (Return tt,
     extends b [Call (ApiGet api_endpoint (history_of user)); Send msg_never_nominated]).
Proof.
  intros Hget Hfalsy. rewrite history_command_run, Hget, Hfalsy. by rewrite extends_app.
Qed.

(** X6: when the store answers the history query with a list of records that
    all render, the command paginates exactly one summary per record, in the
    order of the store's answer, under a title that names the user; between
    the query and the pagination it only writes log lines. *)
Theorem history_paginates_in_order ctx user b first others :
  api_get (trace b) api_endpoint (history_of user) = Reply (JList (first :: others)) →
  Forall (fun nomination => returned (_nomination_to_string nomination b) = true)
         (first :: others) →
  ∃ lines logs,
    history_command ctx user b
    = (Return tt,
       extends b (Call (ApiGet api_endpoint (history_of user))
                  :: logs ++ [Paginate lines (history_embed user)]))
    ∧ Forall is_log logs
    ∧ Forall2 (fun nomination line => fst (_nomination_to_string nomination b) = Return line)
              (first :: others) lines.
Proof.
  intros Hget Hall. rewrite history_command_run, Hget. cbn [truthy py_iter].
  set (b1 := extends b [Call (ApiGet api_endpoint (history_of user))]).
  destruct (for_each_nomination_to_string_run (first :: others) b b1 eq_refl)
    as (logs & Hlogs & Hsnd & Hfst).
  destruct (for_each _nomination_to_string (first :: others) b1) as [[lines|e] b2];
    simpl in Hsnd, Hfst; subst b2.
  - exists lines, logs. split; [| by split].
    unfold b1. rewrite !extends_app. reflexivity.
  - exfalso. destruct Hfst as (good & bad & rest & Hsplit & _ & Hbad).
    assert (Hin : In bad (first :: others)) by (rewrite Hsplit; apply in_elt).
    rewrite Forall_forall in Hall. apply list_elem_of_In in Hin.
    specialize (Hall bad Hin). unfold returned in Hall. by rewrite Hbad in Hall.
Qed.

(** X7: when one record of the store's answer cannot be rendered, the history
    command raises the exception of the first such record and shows nothing:
    the summaries of the records before it are discarded, and the trace holds
    the query and log lines only. *)
Theorem history_fails_as_a_whole ctx user b good bad rest e :
  api_get (trace b) api_endpoint (history_of user) = Reply (JList (good ++ bad :: rest)) →
  Forall (fun nomination => returned (_nomination_to_string nomination b) = true) good →
  fst (_nomination_to_string bad b) = Raise e →
  ∃ logs,
    history_command ctx user b
    = (Raise e, extends b (Call (ApiGet api_endpoint (history_of user)) :: logs))
    ∧ Forall is_log logs.
Proof.
  intros Hget Hgood Hbad. rewrite history_command_run, Hget.
  assert (Htruthy : truthy (JList (good ++ bad :: rest)) = true) by by destruct good.
  rewrite Htruthy. cbn [py_iter].
  set (b1 := extends b [Call (ApiGet api_endpoint (history_of user))]).
  destruct (for_each_nomination_to_string_run (good ++ bad :: rest) b b1 eq_refl)
    as (logs & Hlogs & Hsnd & Hfst).
  destruct (for_each _nomination_to_string (good ++ bad :: rest) b1) as [[lines|e'] b2];
    simpl in Hsnd, Hfst; subst b2.
  - exfalso. apply Forall2_app_inv_l in Hfst as (lines1 & lines2 & _ & Hrest & _).
    inversion Hrest as [|? line ? ? Hline _]; subst. congruence.
  - destruct Hfst as (good' & bad' & rest' & Hsplit & Hgood' & Hbad').
    assert (bad' = bad) as ->.
    { symmetry. apply (first_failure_unique
                 (fun nomination => returned (_nomination_to_string nomination b) = true)
                 good bad rest good' bad' rest' Hsplit Hgood); [| exact Hgood' |];
        unfold returned; [rewrite Hbad | rewrite Hbad']; discriminate. }
    assert (e' = e) as -> by congruence.
    exists logs. split; [| exact Hlogs]. unfold b1. by rewrite extends_app.
Qed.

Lemma replies_during_extends b (r : result unit) evs :
  replies_during b (r, extends b evs) = replies evs.
Proof. unfold replies_during, extends. simpl. by rewrite drop_app_length. Qed.

Lemma extends_cons b e evs : extends (extends b [e]) evs = extends b (e :: evs).
Proof. by rewrite extends_app. Qed.

(** X8: the unwatch, edit, history and rules commands answer the user exactly
    once when they return (one message, one embed or one pagination) and not
    at all when they raise, whatever the store answers. *)
Theorem commands_answer_once ctx nomination_id reason user rules b :
  let answers_once (run : result unit * Bot) :=
    length (replies_during b run) = (if returned run then 1 else 0)%nat in
  answers_once (unwatch_command ctx user reason b)
  ∧ answers_once (edit_reason_command ctx nomination_id reason b)
  ∧ answers_once (history_command ctx user b)
  ∧ answers_once (site_rules ctx rules b).
Proof.
  intros answers_once. unfold answers_once. split; [| split; [| split]].
  - rewrite unwatch_command_run. cbv zeta. unfold replies_during.
    destruct (api_get _ _ _) as [found|status|]; simpl; try by rewrite drop_app_length.
    destruct (truthy found); simpl; [| by rewrite <- ?app_assoc, drop_app_length].
    destruct (unpack_single found) as [nomination|e]; simpl; try by rewrite drop_app_length.
    destruct (py_getitem_str nomination "id") as [found_id|e]; simpl;
      try by rewrite drop_app_length.
    destruct (api_patch _ _ _); simpl; by rewrite <- ?app_assoc, drop_app_length.
  - rewrite edit_reason_command_run. cbv zeta.
    destruct (api_get _ _ _) as [nomination|status|].
    + destruct (py_getitem_str nomination "active") as [active|e];
        [| by rewrite replies_during_extends].
      destruct (api_patch _ _ _); rewrite ?extends_app, replies_during_extends; reflexivity.
    + destruct (status =? 404); rewrite ?extends_app, replies_during_extends; reflexivity.
    + by rewrite replies_during_extends.
  - rewrite history_command_run. cbv zeta.
    destruct (api_get _ _ _) as [history|status|]; try by rewrite replies_during_extends.
    destruct (truthy history); [| by rewrite extends_app, replies_during_extends].
    destruct (py_iter history) as [nominations|e]; [| by rewrite replies_during_extends].
    set (b1 := extends b [Call (ApiGet api_endpoint (history_of user))]).
    destruct (for_each_nomination_to_string_logs nominations b1) as (logs & Hlogs & Hsnd).
    destruct (for_each _nomination_to_string nominations b1) as [[lines|e] b2];
      simpl in Hsnd; subst b2; unfold b1; rewrite !extends_app, replies_during_extends;
      cbn [app replies]; rewrite ?replies_app, (replies_logs logs Hlogs); reflexivity.
  - destruct rules as [|pick rest];
      [by rewrite site_rules_without_indices, replies_during_extends |].
    rewrite site_rules_run by discriminate. cbv zeta.
    destruct (api_get _ _ _) as [full_rules|status|]; try by rewrite replies_during_extends.
    destruct (invalid_picks full_rules (pick :: rest)) as [[|bad others]|e];
      try by rewrite ?extends_app, replies_during_extends.
    destruct (pick_rules full_rules (pick :: rest));
      by rewrite ?extends_app, replies_during_extends.
Qed.

(** X9: the watch command, with the refresh of the cache as modelled above,
    answers the user exactly once when it returns and not at all when it
    raises. *)
Theorem watch_answers_once ctx user reason b :
  length (replies_during b (watch_command ctx user reason b))
  = (if returned (watch_command ctx user reason b) then 1 else 0)%nat.
Proof.
  destruct (acc_bot user) eqn:Hbot.
  { rewrite watch_refused_run by auto. by rewrite replies_during_extends. }
  destruct (is_staff_member user) eqn:Hstaff.
  { rewrite watch_refused_run by auto. by rewrite replies_during_extends. }
  destruct (fetch_user_cache_run b) as [Hfetch | (records & cache & _ & _ & Hfetch)].
  { rewrite watch_refresh_failed_run by (rewrite ?Hfetch; auto).
    by rewrite replies_during_extends. }
  rewrite (watch_past_refresh _ _ _ _ _ Hbot Hstaff Hfetch). unfold replies_during. simpl.
  destruct (cache !! acc_id user); simpl.
  { by rewrite <- app_assoc, drop_app_length. }
  destruct (session_post _ _ _) as [status [data|]|]; simpl;
    try by rewrite <- ?app_assoc, drop_app_length.
  destruct (status =? 400).
  - destruct (py_get_or_false data "user") as [v|e]; simpl;
      try by rewrite <- ?app_assoc, drop_app_length.
    destruct (truthy v); simpl; by rewrite <- ?app_assoc, drop_app_length.
  - destruct (400 <=? status); simpl; by rewrite <- ?app_assoc, drop_app_length.
Qed.

(** X10: the edit, history and rules commands never change the cache of
    watched users nor the guild, whatever the store answers; in particular an
    edit of the reason of a watched user leaves the cached record as it
    was. *)
Theorem commands_leave_cache_alone ctx nomination_id reason user rules b :
  let unchanged (run : result unit * Bot) :=
    watched_users (snd run) = watched_users b ∧ guild (snd run) = guild b in
  unchanged (edit_reason_command ctx nomination_id reason b)
  ∧ unchanged (history_command ctx user b)
  ∧ unchanged (site_rules ctx rules b).
Proof.
  intros unchanged. unfold unchanged. split; [| split].
  - rewrite edit_reason_command_run. cbv zeta.
    destruct (api_get _ _ _) as [nomination|status|]; [| | by split].
    + destruct (py_getitem_str nomination "active") as [active|e]; [| by split].
      destruct (api_patch _ _ _); by split.
    + destruct (status =? 404); by split.
  - rewrite history_command_run. cbv zeta.
    destruct (api_get _ _ _) as [history|status|]; try by split.
    destruct (truthy history); [| by split].
    destruct (py_iter history) as [nominations|e]; [| by split].
    set (b1 := extends b [Call (ApiGet api_endpoint (history_of user))]).
    destruct (for_each_nomination_to_string_logs nominations b1) as (logs & Hlogs & Hsnd).
    destruct (for_each _nomination_to_string nominations b1) as [[lines|e] b2];
      simpl in Hsnd; subst b2; by split.
  - destruct rules as [|pick rest]; [by rewrite site_rules_without_indices |].
    rewrite site_rules_run by discriminate. cbv zeta.
    destruct (api_get _ _ _) as [full_rules|status|]; try by split.
    destruct (invalid_picks full_rules (pick :: rest)) as [[|bad others]|e]; try by split.
    destruct (pick_rules full_rules (pick :: rest)); by split.
Qed.

Lemma calls_during_extends b (r : result unit) evs :
  calls_during b (r, extends b evs) = store_calls evs.
Proof. unfold calls_during, extends. simpl. by rewrite drop_app_length. Qed.

(** X11: the unwatch command sends an update only when the store listed
    exactly one record and that record has an [id]; the update then goes to
    the path of that id and carries the end reason and [active = false].  A
    listing that is empty, a listing of several records, a value that is not
    a list of records, or a record without [id] never leads to an update. *)
Theorem unwatch_updates_only_the_listed_record ctx user reason b path body :
  ApiPatch path body ∈ calls_during b (unwatch_command ctx user reason b) →
  ∃ found nomination found_id,
    api_get (trace b) api_endpoint (active_of user) = Reply found
    ∧ unpack_single found = Return nomination
    ∧ py_getitem_str nomination "id" = Return found_id
    ∧ path = nomination_path (py_str found_id)
    ∧ body = end_body reason.
Proof.
  rewrite unwatch_command_run. cbv zeta.
  destruct (api_get _ _ _) as [found|status|] eqn:Hget;
    try (rewrite calls_during_extends; by no_update).
  destruct (truthy found);
    [| rewrite extends_app, calls_during_extends; by no_update].
  destruct (unpack_single found) as [nomination|e] eqn:Hone;
    [| rewrite calls_during_extends; by no_update].
  destruct (py_getitem_str nomination "id") as [found_id|e] eqn:Hid;
    [| rewrite calls_during_extends; by no_update].
  intros Hin. exists found, nomination, found_id.
  assert (Hcalls : ApiPatch path body
                   ∈ [ApiGet api_endpoint (active_of user);
                      ApiPatch (nomination_path (py_str found_id)) (end_body reason)]).
  { destruct (api_patch _ _ _); revert Hin; unfold calls_during; simpl;
      rewrite <- ?app_assoc, drop_app_length; simpl; done. }
  apply list_elem_of_In in Hcalls. destruct Hcalls as [Heq | [Heq | []]]; [discriminate |].
  injection Heq as <- <-. repeat split; done.
Qed.

(** X12: the edit command sends an update only after a fetch that returned a
    record with an [active] entry; the update goes to the path of the
    nomination the command was given and sets the single field chosen by that
    entry.  A failed fetch, a 404 or a record without [active] never leads to
    an update. *)
Theorem edit_updates_only_a_fetched_record ctx nomination_id reason b path body :
  ApiPatch path body ∈ calls_during b (edit_reason_command ctx nomination_id reason b) →
  path = nomination_path (str_int nomination_id)
  ∧ ∃ nomination active,
      api_get (trace b) (nomination_path (str_int nomination_id)) ∅ = Reply nomination
      ∧ py_getitem_str nomination "active" = Return active
      ∧ body = JObj [(if truthy active then "reason" else "end_reason", JStr reason)].
Proof.
  rewrite edit_reason_command_run. cbv zeta.
  destruct (api_get _ _ _) as [nomination|status|] eqn:Hget;
    [| destruct (status =? 404); rewrite ?extends_app, calls_during_extends; by no_update
     | rewrite calls_during_extends; by no_update].
  destruct (py_getitem_str nomination "active") as [active|e] eqn:Hactive;
    [| rewrite calls_during_extends; by no_update].
  intros Hin.
  assert (Hcalls : ApiPatch path body
                   ∈ [ApiGet (nomination_path (str_int nomination_id)) ∅;
                      ApiPatch (nomination_path (str_int nomination_id))
                        (JObj [(if truthy active then "reason" else "end_reason",
                                JStr reason)])]).
  { destruct (api_patch _ _ _); revert Hin; rewrite ?extends_app, calls_during_extends;
      simpl; done. }
  apply list_elem_of_In in Hcalls. destruct Hcalls as [Heq | [Heq | []]]; [discriminate |].
  injection Heq as <- <-. split; [reflexivity |]. by exists nomination, active.
Qed.

(** X13: the unwatch, edit and rules commands do not read the cache of
    watched users: started with any other cache they return the same result
    and leave the same trace.  In particular the unwatch command ends the
    nomination of a user the cache does not contain. *)
Theorem commands_ignore_the_cache ctx user nomination_id reason rules b cache :
  let b' := {| watched_users := cache; guild := guild b; trace := trace b |} in
  let same (run run' : result unit * Bot) :=
    fst run' = fst run ∧ trace (snd run') = trace (snd run) in
  same (unwatch_command ctx user reason b) (unwatch_command ctx user reason b')
  ∧ same (edit_reason_command ctx nomination_id reason b)
         (edit_reason_command ctx nomination_id reason b')
  ∧ same (site_rules ctx rules b) (site_rules ctx rules b').
Proof.
  intros b' same. unfold same. split; [| split].
  - rewrite !unwatch_command_run. cbv zeta. simpl.
    destruct (api_get _ _ _) as [found|status|]; try by split.
    destruct (truthy found); [| by split].
    destruct (unpack_single found) as [nomination|e]; [| by split].
    destruct (py_getitem_str nomination "id") as [found_id|e]; [| by split].
    destruct (api_patch _ _ _); by split.
  - rewrite !edit_reason_command_run. cbv zeta. simpl.
    destruct (api_get _ _ _) as [nomination|status|]; [| | by split].
    + destruct (py_getitem_str nomination "active") as [active|e]; [| by split].
      destruct (api_patch _ _ _); by split.
    + destruct (status =? 404); by split.
  - destruct rules as [|pick rest]; [by rewrite !site_rules_without_indices |].
    rewrite !site_rules_run by discriminate. cbv zeta. unfold b'. cbn [trace].
    destruct (api_get _ _ _) as [full_rules|status|]; try by split.
    destruct (invalid_picks full_rules (pick :: rest)) as [[|bad others]|e]; try by split.
    destruct (pick_rules full_rules (pick :: rest)); by split.
Qed.

(** X14: once the refresh has succeeded and the user is not in the refreshed
    cache, any create response with a JSON body and a status below 400 makes
    the watch command insert that body, as it is, into the cache under the id
    of the user and confirm; the cache is otherwise the refreshed one. *)
Theorem watch_caches_the_created_record ctx user reason b br status data :
  acc_bot user = false →
  is_staff_member user = false →
  fetch_user_cache b = (Return true, br) →
  watched_users br !! acc_id user = None →
  session_post (trace br) (_url_for api_endpoint) (create_body ctx user reason)
  = Response status (Some data) →
  status < 400 →
  ∃ b', watch_command ctx user reason b = (Return tt, b')
        ∧ watched_users b' = <[acc_id user := data]> (watched_users br)
        ∧ trace b' = trace br ++ [Call (SessionPost (_url_for api_endpoint)
                                         (create_body ctx user reason));
                                   Send (msg_watching user)].
Proof.
  intros Hbot Hstaff Hfetch Hcached Hpost Hstatus.
  rewrite (watch_past_refresh _ _ _ _ _ Hbot Hstaff Hfetch), Hcached. cbv zeta. rewrite Hpost.
  replace (status =? 400) with false by (symmetry; apply Z.eqb_neq; lia).
  replace (400 <=? status) with false by (symmetry; apply Z.leb_gt; lia).
  eexists. split; [reflexivity |]. split; [reflexivity |]. simpl. by rewrite <- app_assoc.
Qed.

(** X15: the body of the create response is decoded before its status is
    looked at: a response whose body is not JSON makes the watch command
    raise, whatever the status, 201 included; nothing is inserted into the
    cache and the user gets no message. *)
Theorem watch_needs_a_json_body ctx user reason b br status :
  acc_bot user = false →
  is_staff_member user = false →
  fetch_user_cache b = (Return true, br) →
  watched_users br !! acc_id user = None →
  session_post (trace br) (_url_for api_endpoint) (create_body ctx user reason)
  = Response status None →
  watch_command ctx user reason b
  = (Raise ContentTypeError,
     extends br [Call (SessionPost (_url_for api_endpoint) (create_body ctx user reason))]).
Proof.
  intros Hbot Hstaff Hfetch Hcached Hpost.
  rewrite (watch_past_refresh _ _ _ _ _ Hbot Hstaff Hfetch), Hcached. cbv zeta.
  by rewrite Hpost.
Qed.

(** X16: the rules command fetches the rules exactly once when indices are
    given, whatever the store answers and however many indices there are, and
    sends no request at all when none is given. *)
Theorem site_rules_fetches_once ctx rules b :
  calls_during b (site_rules ctx rules b)
  = match rules with
    | [] => []
    | _ :: _ => [ApiGet "rules" (<["link_format" := "md"]> ∅)]
    end.
Proof.
  destruct rules as [|pick rest];
    [by rewrite site_rules_without_indices, calls_during_extends |].
  rewrite site_rules_run by discriminate. cbv zeta.
  destruct (api_get _ _ _) as [full_rules|status|]; try by rewrite calls_during_extends.
  destruct (invalid_picks full_rules (pick :: rest)) as [[|bad others]|e];
    try by rewrite ?extends_app, calls_during_extends.
  destruct (pick_rules full_rules (pick :: rest));
    by rewrite ?extends_app, calls_during_extends.
Qed.

Lemma py_getitem_int_in_range full_rules n pick :
  py_len full_rules = Return n →
  0 ≤ pick < n →
  (∃ rule, py_getitem_int full_rules pick = Return rule)
  ∨ (∃ fields, full_rules = JObj fields ∧ py_getitem_int full_rules pick = Raise KeyError).
Proof.
  intros Hlen Hpick. destruct full_rules; simpl in Hlen; try discriminate.
  - left. injection Hlen as <-. unfold py_getitem_int.
    replace (pick <? 0) with false by (symmetry; apply Z.ltb_ge; lia).
    replace (pick <? 0) with false by (symmetry; apply Z.ltb_ge; lia).
    replace (Z.of_nat (length (characters s)) <=? pick) with false
      by (symmetry; apply Z.leb_gt; lia).
    simpl. destruct (characters_in_range s (Z.to_nat pick)) as [c ->]; [lia | eauto].
  - left. injection Hlen as <-.
    destruct (nth_error items (Z.to_nat pick)) as [rule|] eqn:Hnth.
    + exists rule. apply py_getitem_int_list; [lia | exact Hnth].
    + apply nth_error_None in Hnth. lia.
  - right. by exists fields.
Qed.

Lemma pick_rules_raise full_rules rules e :
  invalid_picks full_rules rules = Return [] →
  pick_rules full_rules rules = Raise e →
  ∃ fields, full_rules = JObj fields ∧ e = KeyError.
Proof.
  induction rules as [|pick rest IH]; cbn [invalid_picks pick_rules]; [discriminate |].
  destruct (pick <? 0) eqn:Hneg.
  { destruct (invalid_picks full_rules rest); discriminate. }
  destruct (py_len full_rules) as [n|e'] eqn:Hlen; [| discriminate].
  destruct (n <=? pick) eqn:Hhigh.
  { destruct (invalid_picks full_rules rest); discriminate. }
  destruct (invalid_picks full_rules rest) as [others|e']; [| discriminate].
  intros Hothers. injection Hothers as ->.
  apply Z.ltb_ge in Hneg. apply Z.leb_gt in Hhigh.
  destruct (py_getitem_int_in_range full_rules n pick Hlen (conj Hneg Hhigh))
    as [[rule ->] | (fields & -> & ->)].
  - destruct (pick_rules full_rules rest); [discriminate |].
    intros Hraise. injection Hraise as <-. by apply IH.
  - intros Hraise. injection Hraise as <-. by exists fields.
Qed.

Lemma invalid_picks_raise_cause full_rules rules e :
  invalid_picks full_rules rules = Raise e →
  py_len full_rules = Raise TypeError ∧ ∃ pick, pick ∈ rules ∧ 0 ≤ pick.
Proof.
  induction rules as [|pick rest IH]; cbn [invalid_picks]; [discriminate |].
  destruct (pick <? 0) eqn:Hneg.
  - destruct (invalid_picks full_rules rest) as [others|e']; [discriminate |].
    intros Heq. injection Heq as ->. destruct (IH eq_refl) as (Hlen & other & Hin & Hother).
    split; [exact Hlen |]. exists other. split; [by right | exact Hother].
  - apply Z.ltb_ge in Hneg.
    destruct (py_len full_rules) as [n|e'] eqn:Hlen.
    + destruct (invalid_picks full_rules rest) as [others|e'']; [discriminate |].
      intros Heq. injection Heq as ->. destruct (IH eq_refl) as (Hlen' & _). congruence.
    + intros _. split; [| exists pick; split; [by left | exact Hneg]].
      destruct full_rules; simpl in Hlen; congruence.
Qed.

(** X17: the rules command raises in four cases only: the store rejects the
    fetch (the error status is raised), the store cannot be reached, the
    fetched value has no length while some requested index is not negative
    (a type error), or the fetched value is a JSON object (a key error).
    With a list or a string from the store it always returns. *)
Theorem site_rules_raises_only_when ctx rules b e :
  fst (site_rules ctx rules b) = Raise e →
  let answer := api_get (trace b) "rules" (<["link_format" := "md"]> ∅) in
  (∃ status, answer = Rejected status ∧ e = ResponseCodeError status)
  ∨ (answer = Unreachable ∧ e = ClientConnectionError)
  ∨ (∃ full_rules pick,
       answer = Reply full_rules ∧ py_len full_rules = Raise TypeError
       ∧ pick ∈ rules ∧ 0 ≤ pick ∧ e = TypeError)
  ∨ (∃ fields, answer = Reply (JObj fields) ∧ e = KeyError).
Proof.
  destruct rules as [|pick rest]; [rewrite site_rules_without_indices; discriminate |].
  rewrite site_rules_run by discriminate. cbv zeta.
  destruct (api_get _ _ _) as [full_rules|status|]; cbn [fst].
  - destruct (invalid_picks full_rules (pick :: rest)) as [[|bad others]|e'] eqn:Hinvalid;
      cbn [fst]; [| discriminate |].
    + destruct (pick_rules full_rules (pick :: rest)) as [lines|e'] eqn:Hpick; cbn [fst];
        [discriminate |].
      intros Heq. injection Heq as ->.
      destruct (pick_rules_raise _ _ _ Hinvalid Hpick) as (fields & -> & ->).
      do 3 right. by exists fields.
    + intros Heq. injection Heq as ->.
      destruct (invalid_picks_raise_cause _ _ _ Hinvalid) as (Hlen & other & Hin & Hother).
      rewrite (invalid_picks_raise _ _ _ Hinvalid).
      do 2 right. left. by exists full_rules, other.
  - intros Heq. injection Heq as <-. left. by exists status.
  - intros Heq. injection Heq as <-. right. left. by split.
Qed.

Lemma invalid_picks_all_negative full_rules rules :
  Forall (fun pick => pick < 0) rules →
  invalid_picks full_rules rules = Return rules.
Proof.
  induction 1 as [|pick rest Hpick _ IH]; cbn [invalid_picks]; [reflexivity |].
  replace (pick <? 0) with true by (symmetry; apply Z.ltb_lt; lia).
  by rewrite IH.
Qed.

(** X18: a negative index is reported without asking for the length of the
    fetched value: when every requested index is negative, the rules command
    reports all of them, in the order given, whatever JSON value the store
    answered with, [null] included. *)
Theorem site_rules_reports_negative_indices ctx pick rest b full_rules :
  api_get (trace b) "rules" (<["link_format" := "md"]> ∅) = Reply full_rules →
  Forall (fun pick => pick < 0) (pick :: rest) →
  site_rules ctx (pick :: rest) b
  = (Return tt,
     extends b [Call (ApiGet "rules" (<["link_format" := "md"]> ∅));
                Send (":x: Invalid rule indices " +:+ join ", " (map str_int (pick :: rest)))]).
Proof.
  intros Hget Hneg. rewrite site_rules_run by discriminate. cbv zeta.
  rewrite Hget, (invalid_picks_all_negative _ _ Hneg). by rewrite extends_app.
Qed.

End CommandProperties.

(** ** The further properties at concrete inputs *)

(** The active nomination of [human], rendered where the actor is a member. *)
Lemma active_nomination_summary_witness :
  fst (_nomination_to_string (C := demo_config) nomination_of_human guild_with_moderator)
  = Return (join NL ["===============";
                     "Status: **Active**";
                     "Date: 2019-09-14T20:10:00Z";
                     "Actor: <@100>";
                     "Reason: helpful";
                     "Nomination ID: `31`";
                     "==============="]).
Proof.
  exact (active_nomination_summary (C := demo_config) nomination_of_human guild_with_moderator
           (JNum 100) (Some {| mention := "<@100>" |}) (JBool true)
           (JStr "2019-09-14T20:10:00Z") "2019-09-14T20:10:00Z" (JStr "helpful") (JNum 31)
           eq_refl eq_refl eq_refl eq_refl eq_refl eq_refl eq_refl eq_refl
           eq_refl eq_refl eq_refl eq_refl).
Defined.

(** An ended nomination, rendered where the actor is not a member. *)
Lemma inactive_nomination_summary_witness :
  fst (_nomination_to_string (C := demo_config) ended_nomination idle_bot)
  = Return (join NL ["===============";
                     "Status: Inactive";
                     "Date: 2019-05-02T09:30:00Z";
                     "Actor: 100";
                     "Reason: active in help channels";
                     EmptyString;
                     "End date: 2019-06-11T18:00:00Z";
                     "Unwatch reason: became a helper";
                     "Nomination ID: `12`";
                     "==============="]).
Proof.
  exact (inactive_nomination_summary (C := demo_config) ended_nomination idle_bot
           (JNum 100) None (JBool false)
           (JStr "2019-05-02T09:30:00Z") "2019-05-02T09:30:00Z"
           (JStr "2019-06-11T18:00:00Z") "2019-06-11T18:00:00Z"
           (JStr "active in help channels") (JStr "became a helper") (JNum 12)
           eq_refl eq_refl eq_refl eq_refl eq_refl eq_refl eq_refl eq_refl eq_refl eq_refl
           eq_refl eq_refl eq_refl eq_refl eq_refl eq_refl eq_refl).
Defined.

(** A reason of two lines. *)
Lemma flush_reason_line_keeps_margin_witness :
  is_indent_char "a" = false
  ∧ fst (_nomination_to_string (C := demo_config) two_line_nomination idle_bot)
    = Return (join NL ["===============";
                       "                Status: **Active**";
                       "                Date: 2019-09-14T20:10:00Z";
                       "                Actor: 100";
                       "                Reason: helpful";
                       "and kind";
                       "                Nomination ID: `33`";
                       "                ==============="]).
Proof.
  split; [reflexivity |].
  exact (flush_reason_line_keeps_margin (C := demo_config) two_line_nomination idle_bot
           (JNum 100) None (JBool true)
           (JStr "2019-09-14T20:10:00Z") "2019-09-14T20:10:00Z"
           "helpful" "a" "nd kind" (JNum 33)
           eq_refl eq_refl eq_refl eq_refl eq_refl eq_refl eq_refl eq_refl
           eq_refl eq_refl eq_refl eq_refl eq_refl eq_refl).
Defined.

(** A history query answered with an empty list. *)
Lemma history_of_unknown_user_witness :
  api_get (Store := accepting_store) (trace idle_bot) api_endpoint (history_of human)
  = Reply (JList [])
  ∧ truthy (JList []) = false
  ∧ history_command (C := demo_config) (S := accepting_store) demo_ctx human idle_bot
    = (Return tt,
       extends idle_bot [Call (ApiGet api_endpoint (history_of human));
                         Send msg_never_nominated]).
Proof.
  do 2 (split; [reflexivity |]).
  exact (history_of_unknown_user (C := demo_config) (S := accepting_store)
           demo_ctx human idle_bot (JList []) eq_refl eq_refl).
Defined.

(** A history of two nominations. *)
Lemma history_paginates_in_order_witness :
  Forall (fun nomination =>
            returned (_nomination_to_string (C := demo_config) nomination idle_bot) = true)
         [nomination_of_human; ended_nomination]
  ∧ ∃ lines logs,
      history_command (C := demo_config) (S := history_store) demo_ctx human idle_bot
      = (Return tt,
         extends idle_bot (Call (ApiGet api_endpoint (history_of human))
                           :: logs ++ [Paginate lines (history_embed human)]))
      ∧ Forall is_log logs
      ∧ Forall2 (fun nomination line =>
                   fst (_nomination_to_string (C := demo_config) nomination idle_bot)
                   = Return line)
                [nomination_of_human; ended_nomination] lines.
Proof.
  assert (Hall : Forall (fun nomination =>
                   returned (_nomination_to_string (C := demo_config) nomination idle_bot)
                   = true)
                   [nomination_of_human; ended_nomination])
    by (repeat constructor).
  split; [exact Hall |].
  exact (history_paginates_in_order (C := demo_config) (S := history_store)
           demo_ctx human idle_bot nomination_of_human [ended_nomination] eq_refl Hall).
Defined.

(** A history whose second record lacks its reason. *)
Lemma history_fails_as_a_whole_witness :
  fst (_nomination_to_string (C := demo_config) nomination_without_reason idle_bot)
  = Raise KeyError
  ∧ ∃ logs,
      history_command (C := demo_config) (S := damaged_history_store) demo_ctx human idle_bot
      = (Raise KeyError, extends idle_bot (Call (ApiGet api_endpoint (history_of human)) :: logs))
      ∧ Forall is_log logs.
Proof.
  split; [reflexivity |].
  apply (history_fails_as_a_whole (C := demo_config) (S := damaged_history_store)
           demo_ctx human idle_bot [nomination_of_human] nomination_without_reason
           [ended_nomination] KeyError).
  - reflexivity.
  - repeat constructor.
  - reflexivity.
Defined.

(** Ending the listed nomination of [human]. *)
Lemma unwatch_updates_only_the_listed_record_witness :
  ApiPatch "bot/nominations/31" (end_body "moved on")
  ∈ calls_during watching_human
      (unwatch_command (C := demo_config) (S := listing_store)
         demo_ctx human "moved on" watching_human)
  ∧ ∃ found nomination found_id,
      api_get (Store := listing_store) (trace watching_human) api_endpoint (active_of human)
      = Reply found
      ∧ unpack_single found = Return nomination
      ∧ py_getitem_str nomination "id" = Return found_id
      ∧ "bot/nominations/31" = nomination_path (py_str (C := demo_config) found_id)
      ∧ end_body "moved on" = end_body "moved on".
Proof.
  assert (Hin : ApiPatch "bot/nominations/31" (end_body "moved on")
                ∈ calls_during watching_human
                    (unwatch_command (C := demo_config) (S := listing_store)
                       demo_ctx human "moved on" watching_human)).
  { apply list_elem_of_In. right. left. reflexivity. }
  split; [exact Hin |].
  exact (unwatch_updates_only_the_listed_record (C := demo_config) (S := listing_store)
           demo_ctx human "moved on" watching_human _ _ Hin).
Defined.

(** Editing the reason of the nomination of [human]. *)
Lemma edit_updates_only_a_fetched_record_witness :
  ApiPatch "bot/nominations/31" (JObj [("reason", JStr "kind")])
  ∈ calls_during idle_bot
      (edit_reason_command (S := record_store) demo_ctx 31 "kind" idle_bot)
  ∧ "bot/nominations/31" = nomination_path (str_int 31).
Proof.
  assert (Hin : ApiPatch "bot/nominations/31" (JObj [("reason", JStr "kind")])
                ∈ calls_during idle_bot
                    (edit_reason_command (S := record_store) demo_ctx 31 "kind" idle_bot)).
  { apply list_elem_of_In. right. left. reflexivity. }
  split; [exact Hin |].
  exact (proj1 (edit_updates_only_a_fetched_record (S := record_store)
                  demo_ctx 31 "kind" idle_bot _ _ Hin)).
Defined.

(** A create request answered with status 201 and the new record. *)
Lemma watch_caches_the_created_record_witness :
  fetch_user_cache (S := accepting_store) idle_bot
  = (Return true, extends idle_bot [Call (ApiGet api_endpoint api_default_params)])
  ∧ 201 < 400
  ∧ ∃ b', watch_command (C := demo_config) (S := accepting_store)
            demo_ctx human "helpful" idle_bot = (Return tt, b')
          ∧ watched_users b' = <[7 := nomination_of_human]> ∅
          ∧ trace b' = [Call (ApiGet api_endpoint api_default_params);
                        Call (SessionPost "https://api.pythondiscord.com/bot/nominations"
                                (create_body demo_ctx human "helpful"));
                        Send (msg_watching human)].
Proof.
  split; [reflexivity |]. split; [lia |].
  exact (watch_caches_the_created_record (C := demo_config) (S := accepting_store)
           demo_ctx human "helpful" idle_bot _ 201 nomination_of_human
           eq_refl eq_refl eq_refl eq_refl eq_refl ltac:(lia)).
Defined.

(** A create request answered with status 201 and a body that is not JSON. *)
Lemma watch_needs_a_json_body_witness :
  session_post (Store := unreadable_store)
    [Call (ApiGet api_endpoint api_default_params)]
    "https://api.pythondiscord.com/bot/nominations" (create_body demo_ctx human "helpful")
  = Response 201 None
  ∧ watch_command (C := demo_config) (S := unreadable_store) demo_ctx human "helpful" idle_bot
    = (Raise ContentTypeError,
       extends idle_bot
         [Call (ApiGet api_endpoint api_default_params);
          Call (SessionPost "https://api.pythondiscord.com/bot/nominations"
                  (create_body demo_ctx human "helpful"))]).
Proof.
  split; [reflexivity |].
  exact (watch_needs_a_json_body (C := demo_config) (S := unreadable_store)
           demo_ctx human "helpful" idle_bot _ 201 eq_refl eq_refl eq_refl eq_refl eq_refl).
Defined.

(** Rules fetched from a store that answers with status 500. *)
Lemma site_rules_raises_only_when_witness :
  fst (site_rules (C := demo_config) (S := failing_store 500) demo_ctx [0] idle_bot)
  = Raise (ResponseCodeError 500)
  ∧ api_get (Store := failing_store 500) (trace idle_bot) "rules" (<["link_format" := "md"]> ∅)
    = Rejected 500.
Proof.
  split; [reflexivity |].
  destruct (site_rules_raises_only_when (C := demo_config) (S := failing_store 500)
              demo_ctx [0] idle_bot (ResponseCodeError 500) eq_refl)
    as [(status & Hanswer & Hstatus) | [[Hanswer _] | [(full & pick & Hanswer & _)
                                                      | (fields & Hanswer & _)]]];
    try discriminate Hanswer.
  injection Hstatus as <-. exact Hanswer.
Defined.

(** Two negative indices against a store that answers [null]. *)
Lemma site_rules_reports_negative_indices_witness :
  api_get (Store := null_store) (trace idle_bot) "rules" (<["link_format" := "md"]> ∅)
  = Reply JNull
  ∧ Forall (fun pick => pick < 0) [-1; -7]
  ∧ site_rules (C := demo_config) (S := null_store) demo_ctx [-1; -7] idle_bot
    = (Return tt,
       extends idle_bot [Call (ApiGet "rules" (<["link_format" := "md"]> ∅));
                         Send ":x: Invalid rule indices -1, -7"]).
Proof.
  assert (Hneg : Forall (fun pick => pick < 0) [-1; -7]) by (repeat constructor; lia).
  split; [reflexivity |]. split; [exact Hneg |].
  exact (site_rules_reports_negative_indices (C := demo_config) (S := null_store)
           demo_ctx (-1) [-7] idle_bot JNull eq_refl Hneg).
Defined.
